(** * terraform-provider-k3d: expansion helpers and the CRUD call chains

    A shallow embedding of [internal/provider]: the [expand*] helpers that
    turn schema blocks into the k3d simple configuration, [flattenCredentials],
    and the Create/Read/Delete functions of the cluster, node and registry
    resources and data sources, in their current variant (k3d v5,
    [v1alpha4], registry with volumes and proxy).  The k3d client, the k3d
    configuration pipeline and the plugin SDK are collaborators: every call
    to them goes through a [Collaborators] record of handlers over an
    abstract world, and is logged in a run's event list. *)

From stdpp Require Import base option list strings gmap pretty.

Open Scope Z_scope.

(** ** Go outcomes *)

(** A Go expression either yields a value or panics (a failed type assertion
    on a nil interface, a nil pointer dereference). *)
Inductive res (A : Type) : Type :=
| Ret (a : A)
| Panic.
Arguments Ret {A} a.
Arguments Panic {A}.

#[global] Instance res_ret : MRet res := @Ret.
#[global] Instance res_bind : MBind res := λ A B k r,
  match r with
  | Ret a => k a
  | Panic => Panic
  end.

(** An [error] is modelled by its text, [err.Error()]. *)
Definition error : Type := string.

(** [(T, error)] results of the collaborators. *)
Inductive result (A : Type) : Type :=
| Ok (a : A)
| Err (e : error).
Arguments Ok {A} a.
Arguments Err {A} e.

(** [i.(T)] on an element of a [[]interface{}]: [None] is the nil interface,
    on which the single-valued type assertion panics. *)
Definition assert {A} (i : option A) : res A :=
  match i with
  | Some v => Ret v
  | None => Panic
  end.

(** [for _, i := range l { ...; out = append(out, body(i)) }] *)
Fixpoint range_append {A B} (body : A → res B) (l : list A) (out : list B)
  : res (list B) :=
  match l with
  | [] => Ret out
  | i :: l' => b ← body i; range_append body l' (out ++ [b])
  end.

(** The guard [len(l) == 0 || l[0] == nil] that opens every helper. *)
Definition empty_or_nil {A} (l : list (option A)) : bool :=
  match l with
  | [] => true
  | None :: _ => true
  | Some _ :: _ => false
  end.

(** [fmt.Sprintf("%d", n)] *)
Definition fmt_d (n : Z) : string := pretty n.

(** ** Package [diag] of the plugin SDK *)

Module diag.
Inductive Severity : Type := Error | Warning.

Record Diagnostic : Type := mkDiagnostic {
  Sev : Severity;
  Summary : string;
  Detail : string
}.

Definition Diagnostics : Type := list Diagnostic.

(** [diag.FromErr(err)] for a non-nil [err]. *)
Definition FromErr (err : error) : Diagnostics :=
  [ {| Sev := Error; Summary := err; Detail := "" |} ].

(** [diag.Errorf(msg)] with a format that has no verbs. *)
Definition Errorf (msg : string) : Diagnostics :=
  [ {| Sev := Error; Summary := msg; Detail := "" |} ].

(** [Error] outranks [Warning]; nothing outranks [Error]. *)
Definition more_severe (a b : Severity) : bool :=
  match a, b with
  | Error, Warning => true
  | _, _ => false
  end.

End diag.

(** ** Schema blocks, as [d.Get] hands them to the provider

    A block list is a [[]interface{}] whose elements are
    [map[string]interface{}] values or nil; a block's attributes carry the
    zero value of their schema type when the configuration omits them. *)

Record KeyValueBlock : Type := {
  kv_key : string;
  kv_value : string;
  kv_node_filters : list (option string)
}.

Record ExposureBlock : Type := {
  exp_host : string;
  exp_host_ip : string;
  exp_host_port : Z
}.

Record PortBlock : Type := {
  port_host : string;
  port_host_port : Z;
  port_container_port : Z;
  port_protocol : string;
  port_node_filters : list (option string)
}.

Record VolumeBlock : Type := {
  vol_source : string;
  vol_destination : string;
  vol_node_filters : list (option string)
}.

Record RegistryVolumeBlock : Type := {
  rvol_source : string;
  rvol_destination : string
}.

Record K3dBlock : Type := {
  k3d_disable_image_volume : bool;
  k3d_disable_load_balancer : bool
}.

Record ExtraArgBlock : Type := {
  xa_arg : string;
  xa_node_filters : list (option string)
}.

Record K3sBlock : Type := {
  k3s_extra_args : list (option ExtraArgBlock)
}.

Record KubeconfigBlock : Type := {
  kc_update_default_kubeconfig : bool;
  kc_switch_current_context : bool
}.

Record RuntimeBlock : Type := {
  rt_agents_memory : string;
  rt_gpu_request : string;
  rt_servers_memory : string
}.

Record RegistryCreateBlock : Type := {
  rc_name : string;
  rc_host : string;
  rc_image : string;
  rc_host_port : string
}.

Record RegistriesBlock : Type := {
  regs_config : string;
  regs_create : list (option RegistryCreateBlock);
  regs_use : list (option string)
}.

(** ** k3d configuration values built by the provider ([v1alpha4]) *)

Record EnvVarWithNodeFilters : Type := {
  EnvVar : string;
  env_NodeFilters : list string
}.

Record LabelWithNodeFilters : Type := {
  Label : string;
  label_NodeFilters : list string
}.

Record PortWithNodeFilters : Type := {
  Port : string;
  port_NodeFilters : list string
}.

Record VolumeWithNodeFilters : Type := {
  Volume : string;
  volume_NodeFilters : list string
}.

Record K3sArgWithNodeFilters : Type := {
  Arg : string;
  arg_NodeFilters : list string
}.

Record SimpleExposureOpts : Type := {
  Host : string;
  HostIP : string;
  HostPort : string
}.

Record SimpleConfigOptionsK3d : Type := {
  Wait : bool;
  k3d_Timeout : Z;
  DisableLoadbalancer : bool;
  DisableImageVolume : bool;
  NoRollback : bool
}.

Record SimpleConfigOptionsK3s : Type := {
  ExtraArgs : list K3sArgWithNodeFilters
}.

Record SimpleConfigOptionsKubeconfig : Type := {
  UpdateDefaultKubeconfig : bool;
  SwitchCurrentContext : bool
}.

Record SimpleConfigOptionsRuntime : Type := {
  GPURequest : string;
  ServersMemory : string;
  AgentsMemory : string;
  Labels : list LabelWithNodeFilters
}.

Record SimpleConfigOptions : Type := {
  K3dOptions : SimpleConfigOptionsK3d;
  K3sOptions : SimpleConfigOptionsK3s;
  KubeconfigOptions : SimpleConfigOptionsKubeconfig;
  Runtime : SimpleConfigOptionsRuntime
}.

Record SimpleConfigRegistryCreateConfig : Type := {
  reg_Name : string;
  reg_Host : string;
  reg_Image : string;
  reg_HostPort : string
}.

Record SimpleConfigRegistries : Type := {
  Use : list string;
  Create : option SimpleConfigRegistryCreateConfig;
  Config : string
}.

Record SimpleConfig : Type := {
  sc_Name : string;
  Servers : Z;
  Agents : Z;
  ExposeAPI : SimpleExposureOpts;
  Image : string;
  Network : string;
  ClusterToken : string;
  Volumes : list VolumeWithNodeFilters;
  Ports : list PortWithNodeFilters;
  Options : SimpleConfigOptions;
  Env : list EnvVarWithNodeFilters;
  Registries : SimpleConfigRegistries
}.

(** ** The pure expansion helpers *)

Definition expandNodeFilters (l : list (option string)) : res (list string) :=
  if empty_or_nil l then Ret []
  else range_append assert l [].

Definition expandEnvVars (l : list (option KeyValueBlock))
  : res (list EnvVarWithNodeFilters) :=
  if empty_or_nil l then Ret []
  else range_append (fun i =>
         v ← assert i;
         nf ← expandNodeFilters (kv_node_filters v);
         Ret {| EnvVar := kv_key v +:+ "=" +:+ kv_value v;
                env_NodeFilters := nf |}) l [].

Definition expandLabels (l : list (option KeyValueBlock))
  : res (list LabelWithNodeFilters) :=
  if empty_or_nil l then Ret []
  else range_append (fun i =>
         v ← assert i;
         nf ← expandNodeFilters (kv_node_filters v);
         Ret {| Label := kv_key v +:+ "=" +:+ kv_value v;
                label_NodeFilters := nf |}) l [].

(** The port string is [Sprintf("%s:%d:%d/%s", host, host_port,
    container_port, protocol)]. *)
Definition expandPorts (l : list (option PortBlock))
  : res (list PortWithNodeFilters) :=
  if empty_or_nil l then Ret []
  else range_append (fun i =>
         v ← assert i;
         nf ← expandNodeFilters (port_node_filters v);
         Ret {| Port := port_host v +:+ ":" +:+ fmt_d (port_host_port v)
                        +:+ ":" +:+ fmt_d (port_container_port v)
                        +:+ "/" +:+ port_protocol v;
                port_NodeFilters := nf |}) l [].

Definition expandVolumes (l : list (option VolumeBlock))
  : res (list VolumeWithNodeFilters) :=
  if empty_or_nil l then Ret []
  else range_append (fun i =>
         v ← assert i;
         let volume := vol_destination v in
         let volume :=
           if negb (String.eqb (vol_source v) "")
           then vol_source v +:+ ":" +:+ vol_destination v
           else volume in
         nf ← expandNodeFilters (vol_node_filters v);
         Ret {| Volume := volume; volume_NodeFilters := nf |}) l [].

Definition expandRegistryVolumes (l : list (option RegistryVolumeBlock))
  : res (list string) :=
  if empty_or_nil l then Ret []
  else range_append (fun i =>
         v ← assert i;
         let volume := rvol_destination v in
         let volume :=
           if negb (String.eqb (rvol_source v) "")
           then rvol_source v +:+ ":" +:+ rvol_destination v
           else volume in
         Ret volume) l [].

Definition expandConfigOptionsK3d (l : list (option K3dBlock))
  : SimpleConfigOptionsK3d :=
  let opts := {| Wait := true; k3d_Timeout := 0; DisableLoadbalancer := false;
                 DisableImageVolume := false; NoRollback := false |} in
  match l with
  | [] | None :: _ => opts
  | Some i :: _ =>
      {| Wait := Wait opts; k3d_Timeout := k3d_Timeout opts;
         DisableLoadbalancer := k3d_disable_load_balancer i;
         DisableImageVolume := k3d_disable_image_volume i;
         NoRollback := NoRollback opts |}
  end.

Definition expandConfigOptionsK3s (l : list (option K3sBlock))
  : res SimpleConfigOptionsK3s :=
  match l with
  | [] | None :: _ => Ret {| ExtraArgs := [] |}
  | Some v :: _ =>
      extraArgs ← range_append (fun i =>
         a ← assert i;
         nf ← expandNodeFilters (xa_node_filters a);
         Ret {| Arg := xa_arg a; arg_NodeFilters := nf |})
         (k3s_extra_args v) [];
      Ret {| ExtraArgs := extraArgs |}
  end.

Definition expandConfigOptionsKubeconfig (l : list (option KubeconfigBlock))
  : SimpleConfigOptionsKubeconfig :=
  match l with
  | [] | None :: _ =>
      {| UpdateDefaultKubeconfig := false; SwitchCurrentContext := false |}
  | Some v :: _ =>
      {| UpdateDefaultKubeconfig := kc_update_default_kubeconfig v;
         SwitchCurrentContext := kc_switch_current_context v |}
  end.

Definition expandConfigOptionsRuntime (l : list (option RuntimeBlock))
  : SimpleConfigOptionsRuntime :=
  match l with
  | [] | None :: _ =>
      {| GPURequest := ""; ServersMemory := ""; AgentsMemory := "";
         Labels := [] |}
  | Some v :: _ =>
      {| GPURequest := rt_gpu_request v;
         ServersMemory := rt_servers_memory v;
         AgentsMemory := rt_agents_memory v;
         Labels := [] |}
  end.

(** The [registries] part of [resourceClusterCreate], which the source has
    inline: [simpleConfig.Registries] keeps its zero value when the block is
    absent; [create] is read only when its list has exactly one element, and
    its [host_port] string is copied as it is. *)
Definition expandRegistries (l : list (option RegistriesBlock))
  : res SimpleConfigRegistries :=
  let zero := {| Use := []; Create := None; Config := "" |} in
  match l with
  | [] | None :: _ => Ret zero
  | Some v :: _ =>
      create ←
        match regs_create v with
        | [i] =>
            rtc ← assert i;
            Ret (Some {| reg_Name := rc_name rtc;
                         reg_Host := rc_host rtc;
                         reg_Image := rc_image rtc;
                         reg_HostPort := rc_host_port rtc |})
        | _ => Ret None
        end;
      use ← range_append assert (regs_use v) [];
      Ret {| Use := use; Create := create; Config := regs_config v |}
  end.

(** ** Values exchanged with the k3d client ([types], [client], [nat]) *)

Record Cluster : Type := {
  cl_Name : string;
  cl_Network_Name : string;
  cl_Token : string
}.

(** [&types.Cluster{Name: name}] *)
Definition Cluster_named (name : string) : Cluster :=
  {| cl_Name := name; cl_Network_Name := ""; cl_Token := "" |}.

Record ClusterDeleteOpts : Type := {
  SkipRegistryCheck : bool
}.

(** The fields of [v1alpha4.ClusterConfig] that the provider reads. *)
Record ClusterConfig : Type := {
  cc_Cluster : Cluster;
  cc_KubeconfigOpts : SimpleConfigOptionsKubeconfig
}.

Record WriteKubeConfigOptions : Type := {
  UpdateExisting : bool;
  OverwriteExisting : bool;
  UpdateCurrentContext : bool
}.

Record Node : Type := {
  node_Name : string;
  node_Role : string;
  node_Image : string;
  K3sNodeLabels : gmap string string;
  node_Restart : bool;
  Memory : string
}.

(** [&types.Node{Name: name}] *)
Definition Node_named (name : string) : Node :=
  {| node_Name := name; node_Role := ""; node_Image := "";
     K3sNodeLabels := ∅; node_Restart := false; Memory := "" |}.

Record PortBinding : Type := {
  pb_HostIP : string;
  pb_HostPort : string
}.

Record ExposureOpts : Type := {
  pm_Port : string;
  pm_Binding : PortBinding
}.

Record RegistryProxy : Type := {
  RemoteURL : string;
  Username : string;
  Password : string
}.

Record Registry : Type := {
  registry_ExposureOpts : ExposureOpts;
  registry_Host : string;
  registry_Image : string;
  registry_Volumes : list string;
  registry_Proxy : RegistryProxy
}.

(** [clientcmdapi.Config]: both maps hold pointers, so a lookup yields nil
    for a missing key and for a key bound to nil alike. *)
Record AuthInfo : Type := {
  ClientCertificateData : string;
  ClientKeyData : string
}.

Record KubeCluster : Type := {
  Server : string;
  CertificateAuthorityData : string
}.

Record KubeConfig : Type := {
  AuthInfos : gmap string (option AuthInfo);
  Clusters : gmap string (option KubeCluster)
}.

(** [m[k]] on a Go map of pointers. *)
Definition map_index {V} (m : gmap string (option V)) (k : string) : option V :=
  default None (m !! k).

(** [p.f] on a pointer: nil panics. *)
Definition deref {A} (p : option A) : res A := assert p.

(** The element of the computed [credentials] list. *)
Record Credentials : Type := {
  client_certificate : string;
  client_key : string;
  cluster_ca_certificate : string;
  cred_host : string;
  raw : string
}.

(** Constants of package [types] of k3d, which the repository imports. *)
Record K3dTypes : Type := {
  DefaultObjectNamePrefix : string;
  DefaultClusterName : string;
  DefaultRegistryPort : string;
  LabelRole : string;
  LabelClusterName : string;
  NodeRoles : string → string
}.

(** ** The collaborators

    Each handler takes the arguments of the Go call and the state of the
    outside world (the container runtime, the default kubeconfig file, the
    free ports of the machine) and gives the call's results and the next
    world. *)
Record Collaborators (W : Type) : Type := {
  GetFreePort : W → (Z * option error) * W;
  TransformSimpleToClusterConfig : SimpleConfig → W → result ClusterConfig * W;
  ProcessClusterConfig : ClusterConfig → W → result ClusterConfig * W;
  ValidateClusterConfig : ClusterConfig → W → option error * W;
  ClusterGet : Cluster → W → result Cluster * W;
  ClusterRun : ClusterConfig → W → option error * W;
  ClusterDelete : Cluster → ClusterDeleteOpts → W → option error * W;
  KubeconfigGetWrite :
    Cluster → string → WriteKubeConfigOptions → W → result string * W;
  KubeconfigGet : Cluster → W → result (option KubeConfig) * W;
  NodeAddToCluster : Node → Cluster → W → option error * W;
  NodeGet : Node → W → result Node * W;
  NodeDelete : Node → W → option error * W;
  RegistryRun : Registry → W → result Node * W;
  clientcmd_Write : KubeConfig → result string;
  (** whether [d.Set(key, _)] is refused by the SDK *)
  Set_refused : string → W → option error
}.
Arguments GetFreePort {W}.
Arguments TransformSimpleToClusterConfig {W}.
Arguments ProcessClusterConfig {W}.
Arguments ValidateClusterConfig {W}.
Arguments ClusterGet {W}.
Arguments ClusterRun {W}.
Arguments ClusterDelete {W}.
Arguments KubeconfigGetWrite {W}.
Arguments KubeconfigGet {W}.
Arguments NodeAddToCluster {W}.
Arguments NodeGet {W}.
Arguments NodeDelete {W}.
Arguments RegistryRun {W}.
Arguments clientcmd_Write {W}.
Arguments Set_refused {W}.

(** What a run leaves behind, in order: the calls to the collaborators with
    their arguments and the error they returned (if any), the lines given to
    [log.Printf], and the calls of [d.SetId] and [d.Set]. *)
Inductive Call : Type :=
| CGetFreePort
| CTransformSimpleToClusterConfig (sc : SimpleConfig)
| CProcessClusterConfig (cc : ClusterConfig)
| CValidateClusterConfig (cc : ClusterConfig)
| CClusterGet (c : Cluster)
| CClusterRun (cc : ClusterConfig)
| CClusterDelete (c : Cluster) (opts : ClusterDeleteOpts)
| CKubeconfigGetWrite (c : Cluster) (output : string)
    (opts : WriteKubeConfigOptions)
| CKubeconfigGet (c : Cluster)
| CNodeAddToCluster (n : Node) (c : Cluster)
| CNodeGet (n : Node)
| CNodeDelete (n : Node)
| CRegistryRun (r : Registry)
| CSet (key : string).

Inductive Event : Type :=
| ECall (c : Call) (err : option error)
| ELog (line : string)
| ESetId (id : string).

Definition err_of {A} (r : result A) : option error :=
  match r with
  | Ok _ => None
  | Err e => Some e
  end.

(** ** The monad of a resource function

    [D] is the resource's attribute record behind [d *schema.ResourceData];
    [Id] is the value of [d.Id()]. *)
Record St (W D : Type) : Type := mkSt {
  world : W;
  data : D;
  Id : string
}.
Arguments mkSt {W D}.
Arguments world {W D}.
Arguments data {W D}.
Arguments Id {W D}.

Definition M (W D A : Type) : Type := St W D → res A * St W D * list Event.

Definition M_ret {W D A} (a : A) : M W D A := λ s, (Ret a, s, []).

Definition M_bind {W D A B} (k : A → M W D B) (m : M W D A) : M W D B :=
  λ s, match m s with
       | (Ret a, s', evs) =>
           let '(r, s'', evs') := k a s' in (r, s'', evs ++ evs')
       | (Panic, s', evs) => (Panic, s', evs)
       end.

#[global] Instance M_mret W D : MRet (M W D) := @M_ret W D.
#[global] Instance M_mbind W D : MBind (M W D) := @M_bind W D.

Section Ops.
Context {W D : Type} (h : Collaborators W).

(** a pure Go expression, which may panic *)
Definition lift {A} (r : res A) : M W D A := λ s, (r, s, []).

(** [d.Get] of the whole attribute record *)
Definition get_data : M W D D := λ s, (Ret (data s), s, []).

(** a call whose only result is an [error] *)
Definition call_e (c : Call) (f : W → option error * W)
  : M W D (option error) :=
  λ s, let '(e, w) := f (world s) in
       (Ret e, mkSt w (data s) (Id s), [ECall c e]).

(** a call with a [(T, error)] result *)
Definition call_r {A} (c : Call) (f : W → result A * W)
  : M W D (result A) :=
  λ s, let '(r, w) := f (world s) in
       (Ret r, mkSt w (data s) (Id s), [ECall c (err_of r)]).

(** [log.Printf("[WARN] %s", err)] *)
Definition log_WARN (err : error) : M W D unit :=
  λ s, (Ret (), s, [ELog ("[WARN] " +:+ err)]).

(** [d.SetId(id)] *)
Definition SetId (id : string) : M W D unit :=
  λ s, (Ret (), mkSt (world s) (data s) id, [ESetId id]).

(** [d.Set(key, v)]: the attribute is written unless the SDK refuses. *)
Definition d_Set (key : string) (write : D → D) : M W D (option error) :=
  λ s, match Set_refused h key (world s) with
       | Some e => (Ret (Some e), s, [ECall (CSet key) (Some e)])
       | None => (Ret None, mkSt (world s) (write (data s)) (Id s),
                  [ECall (CSet key) None])
       end.

(** [freePort, _ := util.GetFreePort()] *)
Definition get_free_port : M W D Z :=
  λ s, let '(p, e, w) := GetFreePort h (world s) in
       (Ret p, mkSt w (data s) (Id s), [ECall CGetFreePort e]).
End Ops.

(** ** Attribute records of the resources and data sources *)

Module k3d_cluster.
Record attrs : Type := {
  name : string;
  agents : Z;
  credentials : list Credentials;
  env : list (option KeyValueBlock);
  image : string;
  k3d : list (option K3dBlock);
  k3s : list (option K3sBlock);
  kube_api : list (option ExposureBlock);
  kubeconfig : list (option KubeconfigBlock);
  label : list (option KeyValueBlock);
  network : string;
  port : list (option PortBlock);
  registries : list (option RegistriesBlock);
  runtime : list (option RuntimeBlock);
  servers : Z;
  token : string;
  volume : list (option VolumeBlock)
}.

Definition set_network (v : string) (d : attrs) : attrs :=
  {| name := name d; agents := agents d; credentials := credentials d;
     env := env d; image := image d; k3d := k3d d; k3s := k3s d;
     kube_api := kube_api d; kubeconfig := kubeconfig d; label := label d;
     network := v; port := port d; registries := registries d;
     runtime := runtime d; servers := servers d; token := token d;
     volume := volume d |}.

Definition set_token (v : string) (d : attrs) : attrs :=
  {| name := name d; agents := agents d; credentials := credentials d;
     env := env d; image := image d; k3d := k3d d; k3s := k3s d;
     kube_api := kube_api d; kubeconfig := kubeconfig d; label := label d;
     network := network d; port := port d; registries := registries d;
     runtime := runtime d; servers := servers d; token := v;
     volume := volume d |}.

Definition set_credentials (v : list Credentials) (d : attrs) : attrs :=
  {| name := name d; agents := agents d; credentials := v;
     env := env d; image := image d; k3d := k3d d; k3s := k3s d;
     kube_api := kube_api d; kubeconfig := kubeconfig d; label := label d;
     network := network d; port := port d; registries := registries d;
     runtime := runtime d; servers := servers d; token := token d;
     volume := volume d |}.
End k3d_cluster.

Module k3d_node.
Record attrs : Type := {
  name : string;
  cluster : string;
  image : string;
  memory : string;
  role : string
}.
End k3d_node.

Module k3d_registry.
Record attrs : Type := {
  name : string;
  image : string;
  port : list (option ExposureBlock);
  proxy_remote_url : string;
  proxy_username : string;
  proxy_password : string;
  volume : list (option RegistryVolumeBlock)
}.
End k3d_registry.

Module data_k3d_cluster.
Record attrs : Type := {
  name : string;
  kubeconfig_raw : string;
  network : string;
  token : string
}.

Definition set_kubeconfig_raw (v : string) (d : attrs) : attrs :=
  {| name := name d; kubeconfig_raw := v; network := network d;
     token := token d |}.

Definition set_network (v : string) (d : attrs) : attrs :=
  {| name := name d; kubeconfig_raw := kubeconfig_raw d; network := v;
     token := token d |}.

Definition set_token (v : string) (d : attrs) : attrs :=
  {| name := name d; kubeconfig_raw := kubeconfig_raw d;
     network := network d; token := v |}.
End data_k3d_cluster.

Module data_k3d_node.
Record attrs : Type := {
  name : string;
  cluster : string;
  role : string
}.

Definition set_cluster (v : string) (d : attrs) : attrs :=
  {| name := name d; cluster := v; role := role d |}.

Definition set_role (v : string) (d : attrs) : attrs :=
  {| name := name d; cluster := cluster d; role := v |}.
End data_k3d_node.

Module data_k3d_registry.
Record attrs : Type := {
  name : string
}.
End data_k3d_registry.

(** [simpleConfig.Options = ...] and the writes to [simpleConfig.Registries] *)
Definition with_Options (o : SimpleConfigOptions) (c : SimpleConfig)
  : SimpleConfig :=
  {| sc_Name := sc_Name c; Servers := Servers c; Agents := Agents c;
     ExposeAPI := ExposeAPI c; Image := Image c; Network := Network c;
     ClusterToken := ClusterToken c; Volumes := Volumes c; Ports := Ports c;
     Options := o; Env := Env c; Registries := Registries c |}.

Definition with_Registries (r : SimpleConfigRegistries) (c : SimpleConfig)
  : SimpleConfig :=
  {| sc_Name := sc_Name c; Servers := Servers c; Agents := Agents c;
     ExposeAPI := ExposeAPI c; Image := Image c; Network := Network c;
     ClusterToken := ClusterToken c; Volumes := Volumes c; Ports := Ports c;
     Options := Options c; Env := Env c; Registries := r |}.

Definition already_exists_message : string :=
  "Failed to create cluster because a cluster with that name already exists".

Definition rollback_failed_message : string :=
  "Cluster creation FAILED, also FAILED to rollback changes!".

(** ** The provider *)

Section Provider.
Context {W : Type} (h : Collaborators W) (t : K3dTypes).

(** [fmt.Sprintf("%s-%s", types.DefaultObjectNamePrefix, name)] *)
Definition prefixed (name : string) : string :=
  DefaultObjectNamePrefix t +:+ "-" +:+ name.

Definition flattenCredentials (clusterName : string)
    (config : option KubeConfig) : res (list Credentials) :=
  let clusterID := prefixed clusterName in
  let authInfoName := "admin@" +:+ prefixed clusterName in
  cfg ← deref config;
  (* [raw, _ := clientcmd.Write] of the dereferenced config *)
  let raw := match clientcmd_Write h cfg with
             | Ok bytes => bytes
             | Err _ => ""
             end in
  a1 ← deref (map_index (AuthInfos cfg) authInfoName);
  a2 ← deref (map_index (AuthInfos cfg) authInfoName);
  c1 ← deref (map_index (Clusters cfg) clusterID);
  c2 ← deref (map_index (Clusters cfg) clusterID);
  Ret [ {| client_certificate := ClientCertificateData a1;
           client_key := ClientKeyData a2;
           cluster_ca_certificate := CertificateAuthorityData c1;
           cred_host := Server c2;
           raw := raw |} ].

Definition expandExposureOptions {D} (l : list (option ExposureBlock))
  : M W D SimpleExposureOpts :=
  freePort ← get_free_port h;
  mret match l with
       | [] | None :: _ =>
           {| Host := ""; HostIP := ""; HostPort := fmt_d freePort |}
       | Some v :: _ =>
           let hostPort := exp_host_port v in
           let hostPort := if hostPort =? 0 then freePort else hostPort in
           {| Host := exp_host v; HostIP := exp_host_ip v;
              HostPort := fmt_d hostPort |}
       end.

Definition expandExposureOpts {D} (l : list (option ExposureBlock))
  : M W D ExposureOpts :=
  freePort ← get_free_port h;
  mret match l with
       | [] | None :: _ =>
           {| pm_Port := DefaultRegistryPort t;
              pm_Binding := {| pb_HostIP := "";
                               pb_HostPort := fmt_d freePort |} |}
       | Some v :: _ =>
           let hostPort := exp_host_port v in
           let hostPort := if hostPort =? 0 then freePort else hostPort in
           {| pm_Port := DefaultRegistryPort t;
              pm_Binding := {| pb_HostIP := exp_host_ip v;
                               pb_HostPort := fmt_d hostPort |} |}
       end.

(** *** Cluster *)

Definition resourceClusterRead : M W k3d_cluster.attrs diag.Diagnostics :=
  d ← get_data;
  let clusterName := k3d_cluster.name d in
  r ← call_r (CClusterGet (Cluster_named clusterName))
             (ClusterGet h (Cluster_named clusterName));
  match r with
  | Err err => mret (diag.FromErr err)
  | Ok cluster =>
  e ← d_Set h "network" (k3d_cluster.set_network (cl_Network_Name cluster));
  match e with
  | Some err => mret (diag.FromErr err)
  | None =>
  e ← d_Set h "token" (k3d_cluster.set_token (cl_Token cluster));
  match e with
  | Some err => mret (diag.FromErr err)
  | None =>
  r ← call_r (CKubeconfigGet cluster) (KubeconfigGet h cluster);
  match r with
  | Ok k =>
      creds ← lift (flattenCredentials clusterName k);
      e ← d_Set h "credentials" (k3d_cluster.set_credentials creds);
      match e with
      | Some err => mret (diag.FromErr err)
      | None => mret []
      end
  | Err err =>
      _ ← log_WARN err;
      mret []
  end end end end.

Definition resourceClusterCreate : M W k3d_cluster.attrs diag.Diagnostics :=
  d ← get_data;
  let clusterName := k3d_cluster.name d in
  env ← lift (expandEnvVars (k3d_cluster.env d));
  exposeAPI ← expandExposureOptions (k3d_cluster.kube_api d);
  ports ← lift (expandPorts (k3d_cluster.port d));
  volumes ← lift (expandVolumes (k3d_cluster.volume d));
  labels ← lift (expandLabels (k3d_cluster.label d));
  let simpleConfig :=
    {| sc_Name := clusterName;
       Agents := k3d_cluster.agents d;
       ClusterToken := k3d_cluster.token d;
       Env := env;
       ExposeAPI := exposeAPI;
       Image := k3d_cluster.image d;
       Network := k3d_cluster.network d;
       Ports := ports;
       Servers := k3d_cluster.servers d;
       Volumes := volumes;
       Options :=
         {| K3dOptions := {| Wait := false; k3d_Timeout := 0;
                             DisableLoadbalancer := false;
                             DisableImageVolume := false;
                             NoRollback := false |};
            K3sOptions := {| ExtraArgs := [] |};
            KubeconfigOptions := {| UpdateDefaultKubeconfig := false;
                                    SwitchCurrentContext := false |};
            Runtime := {| GPURequest := ""; ServersMemory := "";
                          AgentsMemory := ""; Labels := labels |} |};
       Registries := {| Use := []; Create := None; Config := "" |} |} in
  let k3dOptions := expandConfigOptionsK3d (k3d_cluster.k3d d) in
  k3sOptions ← lift (expandConfigOptionsK3s (k3d_cluster.k3s d));
  let simpleConfig :=
    with_Options
      {| K3dOptions := k3dOptions;
         K3sOptions := k3sOptions;
         KubeconfigOptions :=
           expandConfigOptionsKubeconfig (k3d_cluster.kubeconfig d);
         Runtime := expandConfigOptionsRuntime (k3d_cluster.runtime d) |}
      simpleConfig in
  regs ← lift (expandRegistries (k3d_cluster.registries d));
  let simpleConfig := with_Registries regs simpleConfig in
  (* transform simple config to cluster config *)
  r ← call_r (CTransformSimpleToClusterConfig simpleConfig)
             (TransformSimpleToClusterConfig h simpleConfig);
  match r with
  | Err err => mret (diag.FromErr err)
  | Ok clusterConfig =>
  (* process cluster config *)
  r ← call_r (CProcessClusterConfig clusterConfig)
             (ProcessClusterConfig h clusterConfig);
  match r with
  | Err err => mret (diag.FromErr err)
  | Ok clusterConfig =>
  (* validate cluster config *)
  e ← call_e (CValidateClusterConfig clusterConfig)
             (ValidateClusterConfig h clusterConfig);
  match e with
  | Some err => mret (diag.FromErr err)
  | None =>
  (* check if a cluster with that name exists already *)
  r ← call_r (CClusterGet (cc_Cluster clusterConfig))
             (ClusterGet h (cc_Cluster clusterConfig));
  match r with
  | Ok _ => mret (diag.Errorf already_exists_message)
  | Err _ =>
  (* create cluster *)
  e ← call_e (CClusterRun clusterConfig) (ClusterRun h clusterConfig);
  match e with
  | Some err =>
      (* rollback if creation failed *)
      deleteErr ←
        call_e (CClusterDelete (Cluster_named clusterName)
                               {| SkipRegistryCheck := false |})
               (ClusterDelete h (Cluster_named clusterName)
                                {| SkipRegistryCheck := false |});
      match deleteErr with
      | Some _ => mret (diag.Errorf rollback_failed_message)
      | None => mret (diag.FromErr err)
      end
  | None =>
  (* update default kubeconfig *)
  _ ← (if UpdateDefaultKubeconfig (cc_KubeconfigOpts clusterConfig)
       then
         let opts :=
           {| UpdateExisting := true;
              OverwriteExisting := false;
              UpdateCurrentContext :=
                SwitchCurrentContext
                  (KubeconfigOptions (Options simpleConfig)) |} in
         r ← call_r (CKubeconfigGetWrite (cc_Cluster clusterConfig) "" opts)
                    (KubeconfigGetWrite h (cc_Cluster clusterConfig) ""
                                        opts);
         match r with
         | Err err => log_WARN err
         | Ok _ => mret ()
         end
       else mret ());
  _ ← SetId clusterName;
  resourceClusterRead
  end end end end end.

Definition resourceClusterDelete : M W k3d_cluster.attrs diag.Diagnostics :=
  d ← get_data;
  let clusterName := k3d_cluster.name d in
  e ← call_e (CClusterDelete (Cluster_named clusterName)
                             {| SkipRegistryCheck := false |})
             (ClusterDelete h (Cluster_named clusterName)
                              {| SkipRegistryCheck := false |});
  match e with
  | Some err => mret (diag.FromErr err)
  | None => mret []
  end.

Definition dataSourceClusterRead
  : M W data_k3d_cluster.attrs diag.Diagnostics :=
  d ← get_data;
  let clusterName := data_k3d_cluster.name d in
  _ ← SetId clusterName;
  r ← call_r (CClusterGet (Cluster_named clusterName))
             (ClusterGet h (Cluster_named clusterName));
  match r with
  | Err err => mret (diag.FromErr err)
  | Ok cluster =>
  e ← d_Set h "network"
        (data_k3d_cluster.set_network (cl_Network_Name cluster));
  match e with
  | Some err => mret (diag.FromErr err)
  | None =>
  e ← d_Set h "token" (data_k3d_cluster.set_token (cl_Token cluster));
  match e with
  | Some err => mret (diag.FromErr err)
  | None =>
  r ← call_r (CKubeconfigGet cluster) (KubeconfigGet h cluster);
  match r with
  | Ok k =>
      cfg ← lift (deref k);
      match clientcmd_Write h cfg with
      | Ok bytes =>
          (* the error of this [d.Set] is dropped *)
          _ ← d_Set h "kubeconfig_raw"
                (data_k3d_cluster.set_kubeconfig_raw bytes);
          mret []
      | Err err =>
          _ ← log_WARN err;
          mret []
      end
  | Err err =>
      _ ← log_WARN err;
      mret []
  end end end end.

(** *** Node *)

Definition resourceNodeRead : M W k3d_node.attrs diag.Diagnostics :=
  d ← get_data;
  let nodeName := k3d_node.name d in
  let nodeID := prefixed nodeName in
  r ← call_r (CNodeGet (Node_named nodeID)) (NodeGet h (Node_named nodeID));
  match r with
  | Err err => mret (diag.FromErr err)
  | Ok _ => mret []
  end.

Definition resourceNodeCreate : M W k3d_node.attrs diag.Diagnostics :=
  d ← get_data;
  let clusterName := k3d_node.cluster d in
  let nodeName := k3d_node.name d in
  let nodeID := prefixed nodeName in
  let node :=
    {| node_Name := nodeID;
       node_Role := NodeRoles t (k3d_node.role d);
       node_Image := k3d_node.image d;
       K3sNodeLabels := {[ LabelRole t := k3d_node.role d ]};
       node_Restart := true;
       Memory := k3d_node.memory d |} in
  e ← call_e (CNodeAddToCluster node (Cluster_named clusterName))
             (NodeAddToCluster h node (Cluster_named clusterName));
  match e with
  | Some err => mret (diag.FromErr err)
  | None =>
      _ ← SetId nodeID;
      resourceNodeRead
  end.

Definition resourceNodeDelete : M W k3d_node.attrs diag.Diagnostics :=
  d ← get_data;
  let nodeName := k3d_node.name d in
  let nodeID := prefixed nodeName in
  e ← call_e (CNodeDelete (Node_named nodeID))
             (NodeDelete h (Node_named nodeID));
  match e with
  | Some err => mret (diag.FromErr err)
  | None => mret []
  end.

Definition dataSourceNodeRead : M W data_k3d_node.attrs diag.Diagnostics :=
  d ← get_data;
  let nodeName := data_k3d_node.name d in
  let nodeID := prefixed nodeName in
  _ ← SetId nodeID;
  r ← call_r (CNodeGet (Node_named nodeID)) (NodeGet h (Node_named nodeID));
  match r with
  | Err err => mret (diag.FromErr err)
  | Ok node =>
  e ← d_Set h "cluster"
        (data_k3d_node.set_cluster
           (default "" (K3sNodeLabels node !! LabelClusterName t)));
  match e with
  | Some err => mret (diag.FromErr err)
  | None =>
  e ← d_Set h "role" (data_k3d_node.set_role (node_Role node));
  match e with
  | Some err => mret (diag.FromErr err)
  | None => mret []
  end end end.

(** *** Registry *)

Definition resourceRegistryRead : M W k3d_registry.attrs diag.Diagnostics :=
  d ← get_data;
  let registryName := k3d_registry.name d in
  let registryID := prefixed registryName in
  r ← call_r (CNodeGet (Node_named registryID))
             (NodeGet h (Node_named registryID));
  match r with
  | Err err => mret (diag.FromErr err)
  | Ok _ => mret []
  end.

Definition resourceRegistryCreate
  : M W k3d_registry.attrs diag.Diagnostics :=
  d ← get_data;
  let registryName := k3d_registry.name d in
  let registryID := prefixed registryName in
  exposureOpts ← expandExposureOpts (k3d_registry.port d);
  volumes ← lift (expandRegistryVolumes (k3d_registry.volume d));
  let registry :=
    {| registry_ExposureOpts := exposureOpts;
       registry_Host := registryID;
       registry_Image := k3d_registry.image d;
       registry_Volumes := volumes;
       registry_Proxy :=
         {| RemoteURL := k3d_registry.proxy_remote_url d;
            Username := k3d_registry.proxy_username d;
            Password := k3d_registry.proxy_password d |} |} in
  r ← call_r (CRegistryRun registry) (RegistryRun h registry);
  match r with
  | Err err => mret (diag.FromErr err)
  | Ok _ =>
      _ ← SetId registryID;
      resourceRegistryRead
  end.

Definition resourceRegistryDelete
  : M W k3d_registry.attrs diag.Diagnostics :=
  d ← get_data;
  let registryName := k3d_registry.name d in
  let registryID := prefixed registryName in
  e ← call_e (CNodeDelete (Node_named registryID))
             (NodeDelete h (Node_named registryID));
  match e with
  | Some err => mret (diag.FromErr err)
  | None => mret []
  end.

Definition dataSourceRegistryRead
  : M W data_k3d_registry.attrs diag.Diagnostics :=
  d ← get_data;
  let registryName := data_k3d_registry.name d in
  let registryID := prefixed registryName in
  _ ← SetId registryID;
  r ← call_r (CNodeGet (Node_named registryID))
             (NodeGet h (Node_named registryID));
  match r with
  | Err err => mret (diag.FromErr err)
  | Ok _ => mret []
  end.
End Provider.

(** ** An in-memory k3d, for running the provider on concrete inputs

    The world keeps the names of the clusters and nodes that exist and the
    next free port; [Faults] injects the error a collaborator answers with. *)

Module Sim.
Record World : Type := {
  clusters : list string;
  nodes : list string;
  next_port : Z
}.

Record Faults : Type := {
  f_transform : option error;
  f_process : option error;
  f_validate : option error;
  f_run : option error;
  f_delete : option error;
  f_merge : option error;
  f_fetch : option error;
  f_node_add : option error;
  f_registry_run : option error;
  f_bare_kubeconfig : bool
}.

Definition no_faults : Faults :=
  {| f_transform := None; f_process := None; f_validate := None;
     f_run := None; f_delete := None; f_merge := None; f_fetch := None;
     f_node_add := None; f_registry_run := None;
     f_bare_kubeconfig := false |}.

Definition k3d_types : K3dTypes :=
  {| DefaultObjectNamePrefix := "k3d";
     DefaultClusterName := "k3s-default";
     DefaultRegistryPort := "5000";
     LabelRole := "k3d.role";
     LabelClusterName := "k3d.cluster";
     NodeRoles := λ r, r |}.

Definition has (name : string) (l : list string) : bool :=
  bool_decide (name ∈ l).

Definition remove (name : string) (l : list string) : list string :=
  filter (λ n, n ≠ name) l.

Definition kubeconfig_of (name : string) : KubeConfig :=
  {| AuthInfos :=
       {[ "admin@k3d-" +:+ name :=
            Some {| ClientCertificateData := "CERT";
                    ClientKeyData := "KEY" |} ]};
     Clusters :=
       {[ "k3d-" +:+ name :=
            Some {| Server := "https://0.0.0.0:6443";
                    CertificateAuthorityData := "CA" |} ]} |}.

Definition bare_kubeconfig : KubeConfig :=
  {| AuthInfos := ∅; Clusters := ∅ |}.

Definition with_clusters (l : list string) (w : World) : World :=
  {| clusters := l; nodes := nodes w; next_port := next_port w |}.

Definition with_nodes (l : list string) (w : World) : World :=
  {| clusters := clusters w; nodes := l; next_port := next_port w |}.

Definition fail_or {A} (f : option error) (a : A) : result A :=
  match f with
  | Some e => Err e
  | None => Ok a
  end.

Definition host (f : Faults) : Collaborators World :=
  {| GetFreePort := λ w,
       (next_port w, None,
        {| clusters := clusters w; nodes := nodes w;
           next_port := next_port w + 1 |});
     TransformSimpleToClusterConfig := λ sc w,
       (fail_or (f_transform f)
          {| cc_Cluster := {| cl_Name := sc_Name sc;
                              cl_Network_Name := Network sc;
                              cl_Token := ClusterToken sc |};
             cc_KubeconfigOpts := KubeconfigOptions (Options sc) |}, w);
     ProcessClusterConfig := λ cc w, (fail_or (f_process f) cc, w);
     ValidateClusterConfig := λ cc w, (f_validate f, w);
     ClusterGet := λ c w,
       (if has (cl_Name c) (clusters w)
        then Ok {| cl_Name := cl_Name c;
                   cl_Network_Name := "k3d-" +:+ cl_Name c;
                   cl_Token := "secret" |}
        else Err "No nodes found for given cluster", w);
     ClusterRun := λ cc w,
       match f_run f with
       | Some e => (Some e, w)
       | None =>
           (None, with_clusters (cl_Name (cc_Cluster cc) :: clusters w) w)
       end;
     ClusterDelete := λ c _ w,
       match f_delete f with
       | Some e => (Some e, w)
       | None => (None, with_clusters (remove (cl_Name c) (clusters w)) w)
       end;
     KubeconfigGetWrite := λ c _ _ w,
       (fail_or (f_merge f) "~/.kube/config", w);
     KubeconfigGet := λ c w,
       (fail_or (f_fetch f)
          (Some (if f_bare_kubeconfig f then bare_kubeconfig
                 else kubeconfig_of (cl_Name c))), w);
     NodeAddToCluster := λ n c w,
       match f_node_add f with
       | Some e => (Some e, w)
       | None => (None, with_nodes (node_Name n :: nodes w) w)
       end;
     NodeGet := λ n w,
       (if has (node_Name n) (nodes w) then Ok n
        else Err "Failed to get node", w);
     NodeDelete := λ n w,
       (None, with_nodes (remove (node_Name n) (nodes w)) w);
     RegistryRun := λ r w,
       match f_registry_run f with
       | Some e => (Err e, w)
       | None =>
           (Ok (Node_named (registry_Host r)),
            with_nodes (registry_Host r :: nodes w) w)
       end;
     clientcmd_Write := λ _, Ok "apiVersion: v1";
     Set_refused := λ _ _, None |}.

Definition empty_world : World :=
  {| clusters := []; nodes := []; next_port := 40000 |}.

(** [resource "k3d_cluster" "foo" { name = "bar" ... }] with the given
    [kubeconfig], [port] and [registries] blocks *)
Definition cluster (kubeconfig : list (option KubeconfigBlock))
    (port : list (option PortBlock))
    (registries : list (option RegistriesBlock)) : k3d_cluster.attrs :=
  {| k3d_cluster.name := "bar"; k3d_cluster.agents := 0;
     k3d_cluster.credentials := []; k3d_cluster.env := [];
     k3d_cluster.image := "rancher/k3s:stable"; k3d_cluster.k3d := [];
     k3d_cluster.k3s := []; k3d_cluster.kube_api := [];
     k3d_cluster.kubeconfig := kubeconfig; k3d_cluster.label := [];
     k3d_cluster.network := ""; k3d_cluster.port := port;
     k3d_cluster.registries := registries; k3d_cluster.runtime := [];
     k3d_cluster.servers := 1; k3d_cluster.token := "";
     k3d_cluster.volume := [] |}.

Definition cluster_bar : k3d_cluster.attrs := cluster [] [] [].

(** with [kubeconfig { update_default_kubeconfig = true
    switch_current_context = true }] *)
Definition cluster_bar_merge : k3d_cluster.attrs :=
  cluster [Some {| kc_update_default_kubeconfig := true;
                   kc_switch_current_context := true |}] [] [].

(** [port { container_port = 80 }]: no host, host port or protocol *)
Definition port_80 : PortBlock :=
  {| port_host := ""; port_host_port := 0; port_container_port := 80;
     port_protocol := ""; port_node_filters := [Some "loadbalancer"] |}.

(** [registries { create { name = "my-registry" } }]: no [host_port] *)
Definition registries_create : RegistriesBlock :=
  {| regs_config := "";
     regs_create := [Some {| rc_name := "my-registry"; rc_host := "";
                             rc_image := ""; rc_host_port := "" |}];
     regs_use := [] |}.

Definition cluster_bar_registry : k3d_cluster.attrs :=
  cluster [] [] [Some registries_create].

Definition cluster_bar_port : k3d_cluster.attrs :=
  cluster [] [Some port_80] [].

Definition run_fails : Faults :=
  {| f_transform := None; f_process := None; f_validate := None;
     f_run := Some "boom"; f_delete := None; f_merge := None;
     f_fetch := None; f_node_add := None; f_registry_run := None;
     f_bare_kubeconfig := false |}.

Definition run_and_delete_fail : Faults :=
  {| f_transform := None; f_process := None; f_validate := None;
     f_run := Some "boom"; f_delete := Some "bang"; f_merge := None;
     f_fetch := None; f_node_add := None; f_registry_run := None;
     f_bare_kubeconfig := false |}.

Definition merge_and_fetch_fail : Faults :=
  {| f_transform := None; f_process := None; f_validate := None;
     f_run := None; f_delete := None; f_merge := Some "cannot write";
     f_fetch := Some "cannot read"; f_node_add := None;
     f_registry_run := None; f_bare_kubeconfig := false |}.

Definition bare : Faults :=
  {| f_transform := None; f_process := None; f_validate := None;
     f_run := None; f_delete := None; f_merge := None; f_fetch := None;
     f_node_add := None; f_registry_run := None;
     f_bare_kubeconfig := true |}.

Definition validate_fails : Faults :=
  {| f_transform := None; f_process := None;
     f_validate := Some "invalid configuration";
     f_run := None; f_delete := None; f_merge := None; f_fetch := None;
     f_node_add := None; f_registry_run := None;
     f_bare_kubeconfig := false |}.

(** [resource "k3d_node" "foo" { name = "bar"; cluster = "bar" }] *)
Definition node_bar : k3d_node.attrs :=
  {| k3d_node.name := "bar"; k3d_node.cluster := "bar";
     k3d_node.image := "rancher/k3s:stable"; k3d_node.memory := "";
     k3d_node.role := "agent" |}.

(** [resource "k3d_registry" "foo" { name = "bar" }] *)
Definition registry_bar : k3d_registry.attrs :=
  {| k3d_registry.name := "bar"; k3d_registry.image := "registry:2";
     k3d_registry.port := []; k3d_registry.proxy_remote_url := "";
     k3d_registry.proxy_username := ""; k3d_registry.proxy_password := "";
     k3d_registry.volume := [] |}.

(** a world in which the cluster [bar] is already running *)
Definition world_with_bar : World :=
  {| clusters := ["bar"]; nodes := []; next_port := 40000 |}.

(** a new resource: [d.Id()] is empty *)
Definition fresh {D} (d : D) : St World D :=
  mkSt empty_world d "".

(** a k3d whose [ClusterRun] reports success but leaves no cluster behind,
    so that the read-back of a Create finds nothing *)
Definition host_vanishing : Collaborators World :=
  let h := host no_faults in
  {| GetFreePort := GetFreePort h;
     TransformSimpleToClusterConfig := TransformSimpleToClusterConfig h;
     ProcessClusterConfig := ProcessClusterConfig h;
     ValidateClusterConfig := ValidateClusterConfig h;
     ClusterGet := ClusterGet h;
     ClusterRun := λ _ w, (None, w);
     ClusterDelete := ClusterDelete h;
     KubeconfigGetWrite := KubeconfigGetWrite h;
     KubeconfigGet := KubeconfigGet h;
     NodeAddToCluster := NodeAddToCluster h;
     NodeGet := NodeGet h;
     NodeDelete := NodeDelete h;
     RegistryRun := RegistryRun h;
     clientcmd_Write := clientcmd_Write h;
     Set_refused := Set_refused h |}.

(** The runs used as examples below, evaluated once. *)
Definition create_bar_vanishing :=
  Eval vm_compute in
    resourceClusterCreate host_vanishing k3d_types (fresh cluster_bar).

Definition create_bar :=
  Eval vm_compute in
    resourceClusterCreate (host no_faults) k3d_types (fresh cluster_bar).

Definition create_bar_again :=
  Eval vm_compute in
    resourceClusterCreate (host no_faults) k3d_types
      (mkSt world_with_bar cluster_bar "").

Definition read_bar_bare :=
  Eval vm_compute in
    resourceClusterRead (host bare) k3d_types
      (mkSt world_with_bar cluster_bar "bar").

Definition create_node_bar :=
  Eval vm_compute in
    resourceNodeCreate (host no_faults) k3d_types (fresh node_bar).

Definition create_registry_bar :=
  Eval vm_compute in
    resourceRegistryCreate (host no_faults) k3d_types (fresh registry_bar).

Definition create_bar_run_fails :=
  Eval vm_compute in
    resourceClusterCreate (host run_fails) k3d_types (fresh cluster_bar).

Definition create_bar_run_and_delete_fail :=
  Eval vm_compute in
    resourceClusterCreate (host run_and_delete_fail) k3d_types
      (fresh cluster_bar).

Definition create_bar_merge_fails :=
  Eval vm_compute in
    resourceClusterCreate (host merge_and_fetch_fail) k3d_types
      (fresh cluster_bar_merge).

Definition create_bar_invalid :=
  Eval vm_compute in
    resourceClusterCreate (host validate_fails) k3d_types (fresh cluster_bar).

Definition create_bar_port :=
  Eval vm_compute in
    resourceClusterCreate (host no_faults) k3d_types (fresh cluster_bar_port).

Definition create_bar_registry :=
  Eval vm_compute in
    resourceClusterCreate (host no_faults) k3d_types
      (fresh cluster_bar_registry).
End Sim.

(** ** Observations on the events of a run *)

Definition is_GetFreePort (c : Call) : bool :=
  match c with CGetFreePort => true | _ => false end.



Definition is_Validate (c : Call) : bool :=
  match c with CValidateClusterConfig _ => true | _ => false end.

Definition is_ClusterRun (c : Call) : bool :=
  match c with CClusterRun _ => true | _ => false end.

Definition is_Kubeconfig (c : Call) : bool :=
  match c with
  | CKubeconfigGet _ | CKubeconfigGetWrite _ _ _ => true
  | _ => false
  end.

(** the external create operation of a resource *)
Definition is_create (c : Call) : bool :=
  match c with
  | CClusterRun _ | CNodeAddToCluster _ _ | CRegistryRun _ => true
  | _ => false
  end.


(** the calls that change the outside world *)
Definition is_mutation (c : Call) : bool :=
  match c with
  | CClusterRun _ | CClusterDelete _ _ | CKubeconfigGetWrite _ _ _
  | CNodeAddToCluster _ _ | CNodeDelete _ | CRegistryRun _ => true
  | _ => false
  end.

Definition called (p : Call → bool) (e : Event) : bool :=
  match e with
  | ECall c _ => p c
  | _ => false
  end.

Definition succeeded (p : Call → bool) (e : Event) : bool :=
  match e with
  | ECall c err => p c && match err with None => true | Some _ => false end
  | _ => false
  end.

Definition failed (p : Call → bool) (e : Event) : bool :=
  match e with
  | ECall c err => p c && match err with Some _ => true | None => false end
  | _ => false
  end.

(** The first event that satisfies [p], with the events before and after. *)
Fixpoint split_at (p : Event → bool) (evs : list Event)
  : option (list Event * Event * list Event) :=
  match evs with
  | [] => None
  | e :: evs' =>
      if p e then Some ([], e, evs')
      else match split_at p evs' with
           | Some (pre, x, post) => Some (e :: pre, x, post)
           | None => None
           end
  end.

Definition is_SetId (e : Event) : bool :=
  match e with ESetId _ => true | _ => false end.

(** The kubeconfig has no auth-info entry [admin@<prefix>-<name>] or no
    cluster entry [<prefix>-<name>]. *)
Definition lacks_entry (t : K3dTypes) (clusterName : string)
    (cfg : KubeConfig) : Prop :=
  map_index (AuthInfos cfg) ("admin@" +:+ prefixed t clusterName) = None ∨
  map_index (Clusters cfg) (prefixed t clusterName) = None.


(** [strings.Contains(s, sub)] *)
Fixpoint contains (s sub : string) : bool :=
  String.prefix sub s ||
  match s with
  | EmptyString => false
  | String _ s' => contains s' sub
  end.

(** The last call of a run that returned an error, with that error. *)
Fixpoint last_failed (evs : list Event) : option (Call * error) :=
  match evs with
  | [] => None
  | e :: evs' =>
      match last_failed evs' with
      | Some f => Some f
      | None =>
          match e with
          | ECall c (Some err) => Some (c, err)
          | _ => None
          end
      end
  end.

(** A diagnostic list a resource function may return.  Either it is the
    text of the error of the call that made the operation fail: the last
    call of the run that returned an error, which is the last event of the
    run, or the [ClusterRun] that a successful compensating delete follows.
    Or it is one of the two fixed messages of the cluster Create: a cluster
    that is found (the lookup is the last event and returned no error), and
    a failed creation whose rollback failed too (the failed delete is the
    last event, right after the failed [ClusterRun]). *)
Definition diagnostics_explained (evs : list Event)
    (ds : diag.Diagnostics) : Prop :=
  (∃ c err,
     last_failed evs = Some (c, err) ∧ ds = diag.FromErr err ∧
     Forall (λ d, contains (diag.Summary d) err = true) ds ∧
     (last evs = Some (ECall c (Some err)) ∨
      ∃ cc d opts,
        c = CClusterRun cc ∧
        last evs = Some (ECall (CClusterDelete d opts) None))) ∨
  (ds = diag.Errorf already_exists_message ∧
   ∃ c, last evs = Some (ECall (CClusterGet c) None)) ∨
  (ds = diag.Errorf rollback_failed_message ∧
   ∃ pre cc c opts runErr deleteErr,
     evs = pre ++ [ECall (CClusterRun cc) (Some runErr);
                   ECall (CClusterDelete c opts) (Some deleteErr)]).

Definition errors_explained {W D} (m : M W D diag.Diagnostics) : Prop :=
  ∀ s r s' evs ds,
    m s = (r, s', evs) → r = Ret ds → ds ≠ [] → diagnostics_explained evs ds.


(** ** Further observations *)

(** What the expansion helpers share: nothing for an empty list and for a
    list whose first element is nil, whatever follows it; a panic when the
    first element is a block and a later one is nil; one entry per element
    otherwise. *)
Definition guarded_loop {A B} (f : list (option A) → res (list B)) : Prop :=
  f [] = Ret [] ∧
  (∀ rest, f (None :: rest) = Ret []) ∧
  (∀ v rest, None ∈ rest → f (Some v :: rest) = Panic) ∧
  (∀ l out, f l = Ret out → empty_or_nil l = false → length out = length l).

Definition is_KubeconfigGetWrite (c : Call) : bool :=
  match c with CKubeconfigGetWrite _ _ _ => true | _ => false end.

Definition is_ClusterDelete (c : Call) : bool :=
  match c with CClusterDelete _ _ => true | _ => false end.

(** the number of events that satisfy [p] *)
Fixpoint count (p : Event → bool) (evs : list Event) : nat :=
  match evs with
  | [] => 0%nat
  | e :: evs' => ((if p e then 1 else 0) + count p evs')%nat
  end.

(** The event is about the runtime node [id] or about no node at all; calls
    that are about clusters are excluded. *)
Definition names_node (id : string) (e : Event) : Prop :=
  match e with
  | ECall (CNodeAddToCluster n _) _ => node_Name n = id
  | ECall (CNodeGet n) _ | ECall (CNodeDelete n) _ => n = Node_named id
  | ECall (CRegistryRun reg) _ => registry_Host reg = id
  | ECall (CSet _) _ | ECall CGetFreePort _ => True
  | ECall _ _ => False
  | ESetId i => i = id
  | ELog _ => True
  end.

Definition addresses_node {W D} (m : M W D diag.Diagnostics)
    (id : D → string) : Prop :=
  ∀ s r s' evs, m s = (r, s', evs) → Forall (names_node (id (data s))) evs.


(** ** The earlier variant of the cluster resource (k3d v4, [v1alpha2])

    Its handling of the [k3s] and [registries] blocks differs from the
    current one: the k3s arguments are two plain string lists, and
    [registries.create] is a flag. *)

Module v1alpha2.
Record K3sBlock : Type := {
  extra_agent_args : list (option string);
  extra_server_args : list (option string)
}.

Record RegistriesBlock : Type := {
  config : string;
  create : bool;
  use : list (option string)
}.

Record SimpleConfigOptionsK3s : Type := {
  ExtraServerArgs : list string;
  ExtraAgentArgs : list string
}.

Record SimpleConfigRegistries : Type := {
  Use : list string;
  Create : bool;
  Config : string
}.

Definition expandConfigOptionsK3s (l : list (option K3sBlock))
  : res SimpleConfigOptionsK3s :=
  match l with
  | [] | None :: _ => Ret {| ExtraServerArgs := []; ExtraAgentArgs := [] |}
  | Some v :: _ =>
      extraAgentArgs ← range_append assert (extra_agent_args v) [];
      extraServerArgs ← range_append assert (extra_server_args v) [];
      Ret {| ExtraServerArgs := extraServerArgs;
             ExtraAgentArgs := extraAgentArgs |}
  end.

(** The [registries] part of the earlier [resourceClusterCreate], inline in
    the source. *)
Definition expandRegistries (l : list (option RegistriesBlock))
  : res SimpleConfigRegistries :=
  match l with
  | [] | None :: _ => Ret {| Use := []; Create := false; Config := "" |}
  | Some v :: _ =>
      use ← range_append assert (use v) [];
      Ret {| Use := use; Create := create v; Config := config v |}
  end.
End v1alpha2.


(** ** Further example inputs and runs *)

Module Scenarios.
(** [resource "k3d_cluster" "foo" { name = "bar" ... }] with the given
    [label], [kube_api] and [env] blocks *)
Definition cluster (label : list (option KeyValueBlock))
    (kube_api : list (option ExposureBlock))
    (env : list (option KeyValueBlock)) : k3d_cluster.attrs :=
  {| k3d_cluster.name := "bar"; k3d_cluster.agents := 0;
     k3d_cluster.credentials := []; k3d_cluster.env := env;
     k3d_cluster.image := "rancher/k3s:stable"; k3d_cluster.k3d := [];
     k3d_cluster.k3s := []; k3d_cluster.kube_api := kube_api;
     k3d_cluster.kubeconfig := []; k3d_cluster.label := label;
     k3d_cluster.network := ""; k3d_cluster.port := [];
     k3d_cluster.registries := []; k3d_cluster.runtime := [];
     k3d_cluster.servers := 1; k3d_cluster.token := "";
     k3d_cluster.volume := [] |}.

(** [label { key = "foo" value = "bar" node_filters = ["agent[1]"] }] *)
Definition label_foo : KeyValueBlock :=
  {| kv_key := "foo"; kv_value := "bar";
     kv_node_filters := [Some "agent[1]"] |}.

(** [env { key = "bar" value = "baz" node_filters = ["server[0]"] }] *)
Definition env_bar : KeyValueBlock :=
  {| kv_key := "bar"; kv_value := "baz";
     kv_node_filters := [Some "server[0]"] |}.

(** [kube_api { host = "myhost.my.domain" host_ip = "127.0.0.1"
    host_port = 6445 }] *)
Definition kube_api_6445 : ExposureBlock :=
  {| exp_host := "myhost.my.domain"; exp_host_ip := "127.0.0.1";
     exp_host_port := 6445 |}.

Definition cluster_labelled : k3d_cluster.attrs :=
  cluster [Some label_foo] [Some kube_api_6445] [Some env_bar].

(** a label block followed by a nil element *)
Definition cluster_bad_label : k3d_cluster.attrs :=
  cluster [Some label_foo; None] [] [].

Definition create_labelled :=
  Eval vm_compute in
    resourceClusterCreate (Sim.host Sim.no_faults) Sim.k3d_types
      (Sim.fresh cluster_labelled).

Definition create_bad_label :=
  Eval vm_compute in
    resourceClusterCreate (Sim.host Sim.no_faults) Sim.k3d_types
      (Sim.fresh cluster_bad_label).

Definition create_bare :=
  Eval vm_compute in
    resourceClusterCreate (Sim.host Sim.bare) Sim.k3d_types
      (Sim.fresh Sim.cluster_bar).

(** [resource "k3d_registry" "foo" { name = "bar"
    port { host = "registry.local" host_ip = "127.0.0.1" }
    volume { destination = "/var/lib/registry" } }] *)
Definition registry_with_port : k3d_registry.attrs :=
  {| k3d_registry.name := "bar"; k3d_registry.image := "registry:2";
     k3d_registry.port :=
       [Some {| exp_host := "registry.local"; exp_host_ip := "127.0.0.1";
                exp_host_port := 0 |}];
     k3d_registry.proxy_remote_url := "https://registry-1.docker.io";
     k3d_registry.proxy_username := ""; k3d_registry.proxy_password := "";
     k3d_registry.volume :=
       [Some {| rvol_source := "";
                rvol_destination := "/var/lib/registry" |}] |}.

Definition create_registry_with_port :=
  Eval vm_compute in
    resourceRegistryCreate (Sim.host Sim.no_faults) Sim.k3d_types
      (Sim.fresh registry_with_port).

(** a world in which the node [k3d-bar] runs *)
Definition world_with_node : Sim.World :=
  {| Sim.clusters := ["bar"]; Sim.nodes := ["k3d-bar"];
     Sim.next_port := 40000 |}.




Definition data_node_bar : data_k3d_node.attrs :=
  {| data_k3d_node.name := "bar"; data_k3d_node.cluster := "stale";
     data_k3d_node.role := "" |}.

Definition data_read_node_bar :=
  Eval vm_compute in
    dataSourceNodeRead (Sim.host Sim.no_faults) Sim.k3d_types
      (mkSt world_with_node data_node_bar "").
End Scenarios.

(** * Properties *)

(** ** The loop of the expansion helpers *)

Lemma range_append_Ret {A B} (body : A → res B) (l : list A) (out r : list B) :
  range_append body l out = Ret r →
  ∃ bs, r = out ++ bs ∧ Forall2 (λ i b, body i = Ret b) l bs.
Proof.
  revert out. induction l as [|i l IH]; intros out H; simpl in H.
  - exists []. rewrite app_nil_r. by simplify_eq.
  - destruct (body i) as [b|] eqn:Hb; simpl in H; [|done].
    apply IH in H as (bs & -> & HF).
    exists (b :: bs). rewrite <- app_assoc. split; [done|].
    by constructor.
Qed.

Lemma range_append_total {A B} (body : A → res B) (l : list A) (out : list B) :
  Forall (λ i, ∃ b, body i = Ret b) l →
  ∃ r, range_append body l out = Ret r.
Proof.
  intros HF. revert out. induction HF as [|i l [b Hb] _ IH]; intros out.
  - by eexists.
  - simpl. rewrite Hb. simpl. apply IH.
Qed.

Lemma expandNodeFilters_total (l : list (option string)) :
  Forall is_Some l → ∃ nf, expandNodeFilters l = Ret nf.
Proof.
  intros HF. unfold expandNodeFilters.
  destruct (empty_or_nil l); [by eexists|].
  apply range_append_total.
  eapply Forall_impl; [exact HF|]. intros i [v ->]. by eexists.
Qed.

(** What the body of a loop yields at a non-nil element carries over to the
    same index of the result. *)
Lemma range_append_lookup {A B} (body : option A → res B)
    (l : list (option A)) (r : list B) (i : nat) (v : A) :
  range_append body l [] = Ret r →
  l !! i = Some (Some v) →
  ∃ b, r !! i = Some b ∧ body (Some v) = Ret b.
Proof.
  intros H Hi. apply range_append_Ret in H as (bs & -> & HF).
  destruct (Forall2_lookup_l _ _ _ _ _ HF Hi) as (b & Hb & Hbody).
  by exists b.
Qed.

(** C6: the wire format of volumes and ports.  Whenever a helper returns on
    a list of blocks that passes its guard, the entry at the index of a
    block is: for a cluster volume and for a registry volume,
    [source:destination] when the source is not empty and the destination
    alone when it is; for a port, [host:hostPort:containerPort/protocol].
    On lists without nil (and without nil node filters) the helpers do
    return. *)
Theorem C6_volume_and_port_wire_format :
  (∀ l out i v,
     expandVolumes l = Ret out → empty_or_nil l = false →
     l !! i = Some (Some v) →
     ∃ w, out !! i = Some w ∧
       (vol_source v ≠ "" →
        Volume w = vol_source v +:+ ":" +:+ vol_destination v) ∧
       (vol_source v = "" → Volume w = vol_destination v)) ∧
  (∀ l out i v,
     expandRegistryVolumes l = Ret out → empty_or_nil l = false →
     l !! i = Some (Some v) →
     ∃ w, out !! i = Some w ∧
       (rvol_source v ≠ "" →
        w = rvol_source v +:+ ":" +:+ rvol_destination v) ∧
       (rvol_source v = "" → w = rvol_destination v)) ∧
  (∀ l out i v,
     expandPorts l = Ret out → empty_or_nil l = false →
     l !! i = Some (Some v) →
     ∃ p, out !! i = Some p ∧
       Port p = port_host v +:+ ":" +:+ fmt_d (port_host_port v) +:+ ":"
                +:+ fmt_d (port_container_port v) +:+ "/"
                +:+ port_protocol v) ∧
  (∀ vs : list VolumeBlock,
     Forall (λ v, Forall is_Some (vol_node_filters v)) vs →
     ∃ out, expandVolumes (Some <$> vs) = Ret out) ∧
  (∀ vs : list RegistryVolumeBlock,
     ∃ out, expandRegistryVolumes (Some <$> vs) = Ret out) ∧
  (∀ ps : list PortBlock,
     Forall (λ v, Forall is_Some (port_node_filters v)) ps →
     ∃ out, expandPorts (Some <$> ps) = Ret out).
Proof.
  split_and!.
  - intros l out i v H Hg Hi. unfold expandVolumes in H. rewrite Hg in H.
    destruct (range_append_lookup _ _ _ _ _ H Hi) as (w & Hw & Hb).
    exists w. split; [done|]. simpl in Hb.
    destruct (expandNodeFilters _); simplify_eq/=.
    destruct (String.eqb_spec (vol_source v) ""); simpl; naive_solver.
  - intros l out i v H Hg Hi. unfold expandRegistryVolumes in H.
    rewrite Hg in H.
    destruct (range_append_lookup _ _ _ _ _ H Hi) as (w & Hw & Hb).
    exists w. split; [done|]. simpl in Hb. simplify_eq/=.
    destruct (String.eqb_spec (rvol_source v) ""); simpl; naive_solver.
  - intros l out i v H Hg Hi. unfold expandPorts in H. rewrite Hg in H.
    destruct (range_append_lookup _ _ _ _ _ H Hi) as (w & Hw & Hb).
    exists w. split; [done|]. simpl in Hb.
    destruct (expandNodeFilters _); by simplify_eq/=.
  - intros vs HF. unfold expandVolumes.
    destruct (empty_or_nil _); [by eexists|].
    apply range_append_total, Forall_fmap.
    eapply Forall_impl; [exact HF|]. intros v Hv. simpl.
    destruct (expandNodeFilters_total _ Hv) as [nf ->]. by eexists.
  - intros vs. unfold expandRegistryVolumes.
    destruct (empty_or_nil _); [by eexists|].
    apply range_append_total, Forall_fmap, Forall_true.
    intros v. by eexists.
  - intros ps HF. unfold expandPorts.
    destruct (empty_or_nil _); [by eexists|].
    apply range_append_total, Forall_fmap.
    eapply Forall_impl; [exact HF|]. intros v Hv. simpl.
    destruct (expandNodeFilters_total _ Hv) as [nf ->]. by eexists.
Qed.

Lemma C6_witness :
  (∃ w, expandVolumes
          [Some {| vol_source := "/my/host/path";
                   vol_destination := "/path/in/node";
                   vol_node_filters := [Some "server[0]"; Some "agent[*]"] |}]
        = Ret [w] ∧ Volume w = "/my/host/path:/path/in/node") ∧
  (∃ w, expandRegistryVolumes
          [Some {| rvol_source := "";
                   rvol_destination := "/var/lib/registry" |}]
        = Ret [w] ∧ w = "/var/lib/registry") ∧
  (∃ p, expandPorts
          [Some {| port_host := "0.0.0.0"; port_host_port := 8080;
                   port_container_port := 80; port_protocol := "TCP";
                   port_node_filters := [Some "loadbalancer"] |}]
        = Ret [p] ∧ Port p = "0.0.0.0:8080:80/TCP") ∧
  (∃ out, expandVolumes
            [Some {| vol_source := ""; vol_destination := "/data";
                     vol_node_filters := [Some "agent[*]"] |}] = Ret out).
Proof.
  destruct C6_volume_and_port_wire_format as (Hv & Hr & Hp & Htv & _ & _).
  split; [|split; [|split]].
  - destruct (Hv [Some {| vol_source := "/my/host/path";
                          vol_destination := "/path/in/node";
                          vol_node_filters :=
                            [Some "server[0]"; Some "agent[*]"] |}]
                 _ 0%nat _ eq_refl eq_refl eq_refl) as (w & Hw & Hne & _).
    exists w. split; [|apply Hne; discriminate].
    injection Hw as <-. reflexivity.
  - destruct (Hr [Some {| rvol_source := "";
                          rvol_destination := "/var/lib/registry" |}]
                 _ 0%nat _ eq_refl eq_refl eq_refl) as (w & Hw & _ & He).
    exists w. split; [|apply He; reflexivity].
    injection Hw as <-. reflexivity.
  - destruct (Hp [Some {| port_host := "0.0.0.0"; port_host_port := 8080;
                          port_container_port := 80; port_protocol := "TCP";
                          port_node_filters := [Some "loadbalancer"] |}]
                 _ 0%nat _ eq_refl eq_refl eq_refl) as (p & Hw & Hport).
    exists p. split; [|exact Hport].
    injection Hw as <-. reflexivity.
  - apply (Htv [ {| vol_source := ""; vol_destination := "/data";
                    vol_node_filters := [Some "agent[*]"] |} ]).
    repeat constructor; by eexists.
Defined.

(** ** Stepping through a resource function *)

Lemma M_bind_inv {W D A B} (k : A → M W D B) (m : M W D A) s r s' evs :
  (m ≫= k) s = (r, s', evs) →
  (∃ a s1 e1 e2,
     m s = (Ret a, s1, e1) ∧ k a s1 = (r, s', e2) ∧ evs = e1 ++ e2) ∨
  (m s = (Panic, s', evs) ∧ r = Panic).
Proof.
  unfold mbind, M_mbind, M_bind. intros H.
  destruct (m s) as [[[a|] s1] e1].
  - destruct (k a s1) as [[r2 s2] e2] eqn:Hk. simplify_eq. left.
    by exists a, s1, e1, e2.
  - simplify_eq. by right.
Qed.

Ltac exec_step :=
  match goal with
  | H : (_ ≫= _) _ = (_, _, _) |- _ =>
      apply M_bind_inv in H as [(? & ? & ? & ? & ? & ? & ?)|[? ?]]
  | H : mret _ _ = (_, _, _) |- _ =>
      unfold mret, M_mret, M_ret in H
  | H : lift _ _ = (_, _, _) |- _ => unfold lift in H
  | H : get_data _ = (_, _, _) |- _ => unfold get_data in H
  | H : log_WARN _ _ = (_, _, _) |- _ => unfold log_WARN in H
  | H : SetId _ _ = (_, _, _) |- _ => unfold SetId in H
  | H : call_e _ ?f ?s = (_, _, _) |- _ =>
      unfold call_e in H; destruct (f (world s)) as [? ?] eqn:?
  | H : call_r _ ?f ?s = (_, _, _) |- _ =>
      unfold call_r in H; destruct (f (world s)) as [? ?] eqn:?
  | H : get_free_port ?h ?s = (_, _, _) |- _ =>
      unfold get_free_port in H;
      destruct (GetFreePort h (world s)) as [[? ?] ?] eqn:?
  | H : d_Set ?h ?k _ ?s = (_, _, _) |- _ =>
      unfold d_Set in H; destruct (Set_refused h k (world s)) eqn:?
  | H : (match ?x with _ => _ end) _ = (_, _, _) |- _ => destruct x eqn:?
  | H : (_, _, _) = (_, _, _) |- _ => injection H as ? ? ?
  end; simplify_eq; cbn [app world data Id] in *.

Ltac exec := repeat exec_step.

(** membership in the explicit event list of a path *)
Ltac in_events :=
  repeat match goal with
         | H : _ ∈ _ :: _ |- _ => apply elem_of_cons in H as [?|?]
         | H : _ ∈ [] |- _ => by apply elem_of_nil in H
         end.

(** C3: once validation has succeeded, the next call of a cluster Create is
    the lookup of the validated configuration's cluster; when that lookup
    finds a cluster, Create returns the already-exists error, makes no further
    call, has changed nothing outside (no create, delete or kubeconfig
    write in the whole run) and leaves the resource data and ID untouched. *)
Theorem C3_existing_cluster_is_not_recreated
    {W} (h : Collaborators W) (t : K3dTypes) s r s' evs pre cc post :
  resourceClusterCreate h t s = (r, s', evs) →
  split_at (succeeded is_Validate) evs
    = Some (pre, ECall (CValidateClusterConfig cc) None, post) →
  ∃ e rest,
    post = ECall (CClusterGet (cc_Cluster cc)) e :: rest ∧
    (e = None →
       r = Ret (diag.Errorf already_exists_message) ∧
       rest = [] ∧
       existsb (called is_mutation) evs = false ∧
       Id s' = Id s ∧ data s' = data s).
Proof.
  unfold resourceClusterCreate, resourceClusterRead, expandExposureOptions.
  intros H Hsplit.
  exec.
  all: cbn in Hsplit; simplify_eq.
  all: try (eexists _, _; split; [reflexivity|]; intros ?; simplify_eq/=).
  all: try done.
Qed.

Lemma C3_witness :
  ∃ evs s',
    resourceClusterCreate (Sim.host Sim.no_faults) Sim.k3d_types
      (mkSt Sim.world_with_bar Sim.cluster_bar "")
    = (Ret (diag.Errorf already_exists_message), s', evs) ∧
    existsb (called is_mutation) evs = false ∧ Id s' = "".
Proof.
  assert (resourceClusterCreate (Sim.host Sim.no_faults) Sim.k3d_types
            (mkSt Sim.world_with_bar Sim.cluster_bar "")
          = Sim.create_bar_again) as Hrun by (vm_compute; reflexivity).
  destruct (C3_existing_cluster_is_not_recreated
              (Sim.host Sim.no_faults) Sim.k3d_types
              (mkSt Sim.world_with_bar Sim.cluster_bar "")
              _ _ _ _ _ _ Hrun eq_refl)
    as (e & rest & Hpost & Himp).
  injection Hpost as <- <-.
  destruct (Himp eq_refl) as (Hr & _ & Hmut & Hid & _).
  eexists _, _. split; [|split; [exact Hmut|exact Hid]].
  rewrite Hrun. reflexivity.
Defined.

(** ** The expansion of ports and of the managed registry *)

(** The simple configuration that a cluster Create hands to the k3d
    transformation holds the results of the expansion helpers.  The labels
    are not in it: [Options] is assigned a second time, with the runtime
    options of [expandConfigOptionsRuntime], which carry none. *)
Lemma create_hands_expansions_to_transform
    {W} (h : Collaborators W) (t : K3dTypes) s r s' evs sc e :
  resourceClusterCreate h t s = (r, s', evs) →
  ECall (CTransformSimpleToClusterConfig sc) e ∈ evs →
  expandEnvVars (k3d_cluster.env (data s)) = Ret (Env sc) ∧
  expandPorts (k3d_cluster.port (data s)) = Ret (Ports sc) ∧
  expandVolumes (k3d_cluster.volume (data s)) = Ret (Volumes sc) ∧
  expandRegistries (k3d_cluster.registries (data s)) = Ret (Registries sc) ∧
  Labels (Runtime (Options sc)) = [].
Proof.
  unfold resourceClusterCreate, resourceClusterRead, expandExposureOptions.
  intros H Hin.
  exec; in_events; simplify_eq.
  all: cbn [Env Ports Volumes Registries Options Runtime Labels
              with_Registries with_Options]; split_and!; try done.
  all: by destruct (k3d_cluster.runtime _) as [|[?|] ?].
Qed.

(** C5, as the code has it: the port entries that a cluster Create hands to
    the k3d transformation carry the block's [protocol] and [host_port] as
    they are.  A block without protocol gives an entry that ends in an empty
    protocol, and a block whose host port is unset (zero) gives an entry
    with host port [0]; no default protocol is filled in and no free port is
    used for it. *)
Theorem C5_ports_are_expanded_verbatim
    {W} (h : Collaborators W) (t : K3dTypes) s r s' evs sc e
    (i : nat) (v : PortBlock) :
  resourceClusterCreate h t s = (r, s', evs) →
  ECall (CTransformSimpleToClusterConfig sc) e ∈ evs →
  empty_or_nil (k3d_cluster.port (data s)) = false →
  k3d_cluster.port (data s) !! i = Some (Some v) →
  ∃ p, Ports sc !! i = Some p ∧
    (port_protocol v = "" →
     Port p = port_host v +:+ ":" +:+ fmt_d (port_host_port v) +:+ ":"
              +:+ fmt_d (port_container_port v) +:+ "/") ∧
    (port_host_port v = 0 →
     Port p = port_host v +:+ ":0:" +:+ fmt_d (port_container_port v)
              +:+ "/" +:+ port_protocol v).
Proof.
  intros Hrun Hin Hg Hi.
  destruct (create_hands_expansions_to_transform _ _ _ _ _ _ _ _ Hrun Hin)
    as (_ & H & _).
  unfold expandPorts in H. rewrite Hg in H.
  destruct (range_append_lookup _ _ _ _ _ H Hi) as (p & Hp & Hb).
  exists p. split; [done|]. simpl in Hb.
  destruct (expandNodeFilters _); simplify_eq/=.
  split; intros ->; reflexivity.
Qed.

Lemma C5_witness :
  ∃ s' evs sc p,
    resourceClusterCreate (Sim.host Sim.no_faults) Sim.k3d_types
      (Sim.fresh Sim.cluster_bar_port) = (Ret [], s', evs) ∧
    evs !! 1%nat = Some (ECall (CTransformSimpleToClusterConfig sc) None) ∧
    Ports sc = [p] ∧ Port p = ":0:80/".
Proof.
  assert (resourceClusterCreate (Sim.host Sim.no_faults) Sim.k3d_types
            (Sim.fresh Sim.cluster_bar_port) = Sim.create_bar_port) as Hrun
    by (vm_compute; reflexivity).
  eassert (ECall (CTransformSimpleToClusterConfig _) None
           ∈ Sim.create_bar_port.2) as Hin.
  { apply list_elem_of_lookup. exists 1%nat. reflexivity. }
  destruct (C5_ports_are_expanded_verbatim
              (Sim.host Sim.no_faults) Sim.k3d_types
              (Sim.fresh Sim.cluster_bar_port) _ _ _ _ _ 0%nat Sim.port_80
              Hrun Hin eq_refl eq_refl) as (p & Hp & Hproto & _).
  eexists _, _, _, p. split; [rewrite Hrun; reflexivity|].
  split; [reflexivity|]. split; [|exact (Hproto eq_refl)].
  injection Hp as <-. reflexivity.
Defined.

(** C5 as stated fails: a port block that sets only [container_port = 80]
    expands to [":0:80/"], an entry with host port [0] and an empty
    protocol, and this is the entry that Create hands to k3d; it names
    neither TCP nor an allocated port (the free port of the run, 40000, is
    the API port). *)
Lemma C5_counterexample :
  expandPorts [Some Sim.port_80]
  = Ret [ {| Port := "" +:+ ":" +:+ "0" +:+ ":" +:+ "80" +:+ "/" +:+ "";
             port_NodeFilters := ["loadbalancer"] |} ] ∧
  ∃ s' evs sc p,
    resourceClusterCreate (Sim.host Sim.no_faults) Sim.k3d_types
      (Sim.fresh Sim.cluster_bar_port) = (Ret [], s', evs) ∧
    evs !! 1%nat = Some (ECall (CTransformSimpleToClusterConfig sc) None) ∧
    Ports sc = [p] ∧ Port p = ":0:80/" ∧
    contains (Port p) "TCP" = false ∧ contains (Port p) "tcp" = false ∧
    HostPort (ExposeAPI sc) = "40000" ∧
    contains (Port p) "40000" = false.
Proof.
  assert (resourceClusterCreate (Sim.host Sim.no_faults) Sim.k3d_types
            (Sim.fresh Sim.cluster_bar_port) = Sim.create_bar_port) as Hrun
    by (vm_compute; reflexivity).
  split; [reflexivity|].
  eexists _, _, _, _. split; [rewrite Hrun; reflexivity|].
  split; [reflexivity|]. split; [reflexivity|]. split_and!; reflexivity.
Qed.

(** C4, as the code has it: the [host_port] of a [registries.create] block
    reaches the k3d transformation exactly as the block has it, together
    with name, host and image; when the block omits it, the registry's
    [HostPort] is the empty string. *)
Theorem C4_registry_host_port_is_copied
    {W} (h : Collaborators W) (t : K3dTypes) s r s' evs sc e v rest rtc :
  resourceClusterCreate h t s = (r, s', evs) →
  ECall (CTransformSimpleToClusterConfig sc) e ∈ evs →
  k3d_cluster.registries (data s) = Some v :: rest →
  regs_create v = [Some rtc] →
  Create (Registries sc)
  = Some {| reg_Name := rc_name rtc; reg_Host := rc_host rtc;
            reg_Image := rc_image rtc; reg_HostPort := rc_host_port rtc |} ∧
  (rc_host_port rtc = "" →
   ∃ c, Create (Registries sc) = Some c ∧ reg_HostPort c = "").
Proof.
  intros Hrun Hin Hregs Hcreate.
  destruct (create_hands_expansions_to_transform _ _ _ _ _ _ _ _ Hrun Hin)
    as (_ & _ & _ & H & _).
  rewrite Hregs in H. unfold expandRegistries in H. rewrite Hcreate in H.
  simpl in H. destruct (range_append _ _ _); simplify_eq/=.
  rewrite <- H. simpl. split; [done|].
  intros Hport. eexists. split; [done|]. exact Hport.
Qed.

Lemma C4_witness :
  ∃ s' evs sc,
    resourceClusterCreate (Sim.host Sim.no_faults) Sim.k3d_types
      (Sim.fresh Sim.cluster_bar_registry) = (Ret [], s', evs) ∧
    evs !! 1%nat = Some (ECall (CTransformSimpleToClusterConfig sc) None) ∧
    Create (Registries sc)
    = Some {| reg_Name := "my-registry"; reg_Host := ""; reg_Image := "";
              reg_HostPort := "" |}.
Proof.
  assert (resourceClusterCreate (Sim.host Sim.no_faults) Sim.k3d_types
            (Sim.fresh Sim.cluster_bar_registry)
          = Sim.create_bar_registry) as Hrun by (vm_compute; reflexivity).
  eexists _, _, _. split; [rewrite Hrun; reflexivity|].
  split; [reflexivity|].
  refine (proj1 (C4_registry_host_port_is_copied
                   (Sim.host Sim.no_faults) Sim.k3d_types
                   (Sim.fresh Sim.cluster_bar_registry) _ _ _ _ None
                   Sim.registries_create [] _ Hrun _ eq_refl eq_refl)).
  apply list_elem_of_lookup. exists 1%nat. reflexivity.
Defined.

(** C4 as stated fails: with [registries { create { name = "my-registry" } }]
    the configuration handed to k3d has the registry's [HostPort] empty, and
    the one free port the run asks for is the API port, not the registry's. *)
Lemma C4_counterexample :
  expandRegistries [Some Sim.registries_create]
  = Ret {| Use := [];
           Create := Some {| reg_Name := "my-registry"; reg_Host := "";
                             reg_Image := ""; reg_HostPort := "" |};
           Config := "" |} ∧
  ∃ s' evs sc,
    resourceClusterCreate (Sim.host Sim.no_faults) Sim.k3d_types
      (Sim.fresh Sim.cluster_bar_registry) = (Ret [], s', evs) ∧
    evs !! 1%nat = Some (ECall (CTransformSimpleToClusterConfig sc) None) ∧
    (∃ c, Create (Registries sc) = Some c ∧ reg_HostPort c = "") ∧
    HostPort (ExposeAPI sc) = "40000" ∧
    length (filter (λ e, called is_GetFreePort e = true) evs) = 1%nat.
Proof.
  assert (resourceClusterCreate (Sim.host Sim.no_faults) Sim.k3d_types
            (Sim.fresh Sim.cluster_bar_registry)
          = Sim.create_bar_registry) as Hrun by (vm_compute; reflexivity).
  split; [reflexivity|].
  eexists _, _, _. split; [rewrite Hrun; reflexivity|].
  split; [reflexivity|].
  split; [by eexists|]. split; reflexivity.
Qed.

(** ** Credentials *)

(** C10: [flattenCredentials] is partial.  On a kubeconfig without the
    auth-info entry [admin@<prefix>-<name>] or without the cluster entry
    [<prefix>-<name>] it panics, and it returns one credentials element when
    both entries are there.  In [resourceClusterRead], if the kubeconfigs the
    client returns lack an entry, a successful [KubeconfigGet] is the last
    thing the Read does: it ends in a panic, not in a diagnostic. *)
Theorem C10_flattenCredentials_panics_on_missing_entry
    {W} (h : Collaborators W) (t : K3dTypes) :
  (∀ clusterName cfg,
     lacks_entry t clusterName cfg →
     flattenCredentials h t clusterName (Some cfg) = Panic) ∧
  (∀ clusterName cfg a c,
     map_index (AuthInfos cfg) ("admin@" +:+ prefixed t clusterName) = Some a →
     map_index (Clusters cfg) (prefixed t clusterName) = Some c →
     ∃ creds, flattenCredentials h t clusterName (Some cfg) = Ret [creds]) ∧
  (∀ s r s' evs cluster,
     (∀ c w cfg w',
        KubeconfigGet h c w = (Ok (Some cfg), w') →
        lacks_entry t (k3d_cluster.name (data s)) cfg) →
     resourceClusterRead h t s = (r, s', evs) →
     ECall (CKubeconfigGet cluster) None ∈ evs →
     r = Panic ∧ last evs = Some (ECall (CKubeconfigGet cluster) None)).
Proof.
  assert (∀ clusterName cfg,
            lacks_entry t clusterName cfg →
            flattenCredentials h t clusterName (Some cfg) = Panic) as Hpanic.
  { intros clusterName cfg [Hl|Hl]; unfold flattenCredentials; simpl;
      [by rewrite Hl|].
    destruct (map_index (AuthInfos cfg) _); simpl; [|done]. by rewrite Hl. }
  split; [exact Hpanic|]. split.
  - intros clusterName cfg a c Ha Hc. unfold flattenCredentials. simpl.
    rewrite Ha, Hc. simpl. by eexists.
  - intros s r s' evs cluster Hk H Hin. unfold resourceClusterRead in H.
    exec; in_events; simplify_eq.
    + match goal with
      | Hf : flattenCredentials _ _ _ ?k = Ret _,
        Hg : KubeconfigGet _ _ _ = (Ok ?k, _) |- _ =>
          destruct k as [cfg|]; [|discriminate Hf];
          rewrite (Hpanic _ _ (Hk _ _ _ _ Hg)) in Hf; discriminate Hf
      end.
    + match goal with
      | Hf : flattenCredentials _ _ _ ?k = Ret _,
        Hg : KubeconfigGet _ _ _ = (Ok ?k, _) |- _ =>
          destruct k as [cfg|]; [|discriminate Hf];
          rewrite (Hpanic _ _ (Hk _ _ _ _ Hg)) in Hf; discriminate Hf
      end.
    + done.
Qed.

Lemma C10_witness :
  flattenCredentials (Sim.host Sim.bare) Sim.k3d_types "bar"
    (Some Sim.bare_kubeconfig) = Panic ∧
  ∃ s' evs,
    resourceClusterRead (Sim.host Sim.bare) Sim.k3d_types
      (mkSt Sim.world_with_bar Sim.cluster_bar "bar") = (Panic, s', evs).
Proof.
  destruct (C10_flattenCredentials_panics_on_missing_entry
              (Sim.host Sim.bare) Sim.k3d_types) as (Hflat & _ & Hread).
  assert (lacks_entry Sim.k3d_types "bar" Sim.bare_kubeconfig) as Hlacks
    by (left; reflexivity).
  split; [exact (Hflat "bar" Sim.bare_kubeconfig Hlacks)|].
  assert (resourceClusterRead (Sim.host Sim.bare) Sim.k3d_types
            (mkSt Sim.world_with_bar Sim.cluster_bar "bar")
          = Sim.read_bar_bare) as Hrun by (vm_compute; reflexivity).
  assert (∀ c w cfg w',
            KubeconfigGet (Sim.host Sim.bare) c w = (Ok (Some cfg), w') →
            lacks_entry Sim.k3d_types "bar" cfg) as Hk.
  { intros c w cfg w' Hget. cbn in Hget. injection Hget as <- _.
    exact Hlacks. }
  assert (ECall (CKubeconfigGet {| cl_Name := "bar";
                                   cl_Network_Name := "k3d-bar";
                                   cl_Token := "secret" |}) None
          ∈ Sim.read_bar_bare.2) as Hin.
  { apply list_elem_of_lookup. exists 3%nat. reflexivity. }
  destruct (Hread (mkSt Sim.world_with_bar Sim.cluster_bar "bar")
              _ _ _ _ Hk Hrun Hin) as [Hr _].
  eexists _, _. rewrite Hrun. reflexivity.
Defined.

(** ** Resource identity *)

Lemma length_append (a b : string) :
  String.length (a +:+ b) = (String.length a + String.length b)%nat.
Proof. induction a as [|c a IH]; simpl; [done|]. by rewrite IH. Qed.

(** A name never equals its prefixed form, whatever the prefix is. *)
Lemma name_is_not_prefixed (t : K3dTypes) (name : string) :
  name ≠ prefixed t name.
Proof.
  intros Heq. apply (f_equal String.length) in Heq.
  unfold prefixed in Heq. rewrite !length_append in Heq. simpl in Heq. lia.
Qed.

(** C1, as the code has it: a node and a registry get the ID
    [<prefix>-<name>], on Create and in the Read of their data source; a
    cluster gets its bare name as ID, on Create and in the Read of its data
    source; the Read of a resource leaves the ID as it is. *)
Theorem C1_identity_of_each_kind
    {W} (h : Collaborators W) (t : K3dTypes) :
  (∀ s r s' evs,
     resourceNodeCreate h t s = (r, s', evs) →
     existsb (succeeded is_create) evs = true →
     Id s' = prefixed t (k3d_node.name (data s)) ∧
     ESetId (prefixed t (k3d_node.name (data s))) ∈ evs) ∧
  (∀ s r s' evs,
     resourceRegistryCreate h t s = (r, s', evs) →
     existsb (succeeded is_create) evs = true →
     Id s' = prefixed t (k3d_registry.name (data s)) ∧
     ESetId (prefixed t (k3d_registry.name (data s))) ∈ evs) ∧
  (∀ s r s' evs,
     resourceClusterCreate h t s = (r, s', evs) →
     existsb (succeeded is_create) evs = true →
     Id s' = k3d_cluster.name (data s) ∧
     ESetId (k3d_cluster.name (data s)) ∈ evs) ∧
  (∀ s r s' evs,
     dataSourceNodeRead h t s = (r, s', evs) →
     Id s' = prefixed t (data_k3d_node.name (data s))) ∧
  (∀ s r s' evs,
     dataSourceRegistryRead h t s = (r, s', evs) →
     Id s' = prefixed t (data_k3d_registry.name (data s))) ∧
  (∀ s r s' evs,
     dataSourceClusterRead h s = (r, s', evs) →
     Id s' = data_k3d_cluster.name (data s)) ∧
  (∀ s r s' evs, resourceNodeRead h t s = (r, s', evs) → Id s' = Id s) ∧
  (∀ s r s' evs, resourceRegistryRead h t s = (r, s', evs) → Id s' = Id s) ∧
  (∀ s r s' evs, resourceClusterRead h t s = (r, s', evs) → Id s' = Id s).
Proof.
  split_and!.
  1-3: intros s r s' evs H Hc;
       unfold resourceNodeCreate, resourceRegistryCreate,
         resourceClusterCreate, resourceNodeRead, resourceRegistryRead,
         resourceClusterRead, expandExposureOptions, expandExposureOpts in H;
       exec; try discriminate Hc; (split; [done|]);
       repeat first [apply list_elem_of_here | apply list_elem_of_further].
  all: intros s r s' evs H;
       unfold dataSourceNodeRead, dataSourceRegistryRead,
         dataSourceClusterRead, resourceNodeRead, resourceRegistryRead,
         resourceClusterRead in H;
       exec; done.
Qed.

Lemma C1_witness :
  (∃ r s' evs,
     resourceNodeCreate (Sim.host Sim.no_faults) Sim.k3d_types
       (Sim.fresh Sim.node_bar) = (r, s', evs) ∧ Id s' = "k3d-bar") ∧
  (∃ r s' evs,
     resourceRegistryCreate (Sim.host Sim.no_faults) Sim.k3d_types
       (Sim.fresh Sim.registry_bar) = (r, s', evs) ∧ Id s' = "k3d-bar") ∧
  (∃ r s' evs,
     resourceClusterCreate (Sim.host Sim.no_faults) Sim.k3d_types
       (Sim.fresh Sim.cluster_bar) = (r, s', evs) ∧ Id s' = "bar").
Proof.
  destruct (C1_identity_of_each_kind (Sim.host Sim.no_faults) Sim.k3d_types)
    as (Hn & Hr & Hc & _).
  assert (resourceNodeCreate (Sim.host Sim.no_faults) Sim.k3d_types
            (Sim.fresh Sim.node_bar) = Sim.create_node_bar) as Hrun1
    by (vm_compute; reflexivity).
  assert (resourceRegistryCreate (Sim.host Sim.no_faults) Sim.k3d_types
            (Sim.fresh Sim.registry_bar) = Sim.create_registry_bar) as Hrun2
    by (vm_compute; reflexivity).
  assert (resourceClusterCreate (Sim.host Sim.no_faults) Sim.k3d_types
            (Sim.fresh Sim.cluster_bar) = Sim.create_bar) as Hrun3
    by (vm_compute; reflexivity).
  split; [|split].
  - eexists _, _, _. split; [exact Hrun1|].
    exact (proj1 (Hn _ _ _ _ Hrun1 eq_refl)).
  - eexists _, _, _. split; [exact Hrun2|].
    exact (proj1 (Hr _ _ _ _ Hrun2 eq_refl)).
  - eexists _, _, _. split; [exact Hrun3|].
    exact (proj1 (Hc _ _ _ _ Hrun3 eq_refl)).
Defined.

(** C1 as stated fails for clusters: creating the cluster [bar] succeeds and
    leaves the ID [bar], which is not [<prefix>-bar], here [k3d-bar] (nor
    would it be for any other prefix). *)
Lemma C1_counterexample :
  ∃ s' evs,
    resourceClusterCreate (Sim.host Sim.no_faults) Sim.k3d_types
      (Sim.fresh Sim.cluster_bar) = (Ret [], s', evs) ∧
    Id s' = "bar" ∧
    prefixed Sim.k3d_types (k3d_cluster.name Sim.cluster_bar) = "k3d-bar" ∧
    Id s' ≠ prefixed Sim.k3d_types (k3d_cluster.name Sim.cluster_bar) ∧
    (∀ t, Id s' ≠ prefixed t (k3d_cluster.name Sim.cluster_bar)).
Proof.
  assert (resourceClusterCreate (Sim.host Sim.no_faults) Sim.k3d_types
            (Sim.fresh Sim.cluster_bar) = Sim.create_bar) as Hrun
    by (vm_compute; reflexivity).
  eexists _, _. split; [rewrite Hrun; reflexivity|].
  split; [reflexivity|]. split; [reflexivity|].
  split; [discriminate|]. intros t. apply (name_is_not_prefixed t "bar").
Qed.

(** ** Rollback of a failed cluster creation *)

(** C2, as the code has it: when [ClusterRun] fails, the one remaining call
    is [ClusterDelete] on the cluster named by the resource's [name] (the
    ID a successful Create assigns).  If the delete succeeds Create returns
    the creation error; if it fails too, Create returns the fixed
    rollback-failed message.  Both diagnostics have severity [Error], and the
    ID stays unset. *)
Theorem C2_failed_create_is_rolled_back
    {W} (h : Collaborators W) (t : K3dTypes) s r s' evs pre cc err post :
  resourceClusterCreate h t s = (r, s', evs) →
  split_at (failed is_ClusterRun) evs
    = Some (pre, ECall (CClusterRun cc) (Some err), post) →
  ∃ deleteErr,
    post = [ECall (CClusterDelete (Cluster_named (k3d_cluster.name (data s)))
                                  {| SkipRegistryCheck := false |})
                  deleteErr] ∧
    (deleteErr = None → r = Ret (diag.FromErr err)) ∧
    (deleteErr ≠ None → r = Ret (diag.Errorf rollback_failed_message)) ∧
    (∃ ds, r = Ret ds ∧ Forall (λ d, diag.Sev d = diag.Error) ds) ∧
    Id s' = Id s.
Proof.
  unfold resourceClusterCreate, resourceClusterRead, expandExposureOptions.
  intros H Hsplit.
  exec; cbn in Hsplit; simplify_eq.
  all: eexists; split; [reflexivity|].
  all: repeat split; try done; try (eexists; split; [reflexivity|]).
  all: by repeat constructor.
Qed.

Lemma C2_witness :
  (∃ s' evs,
     resourceClusterCreate (Sim.host Sim.run_fails) Sim.k3d_types
       (Sim.fresh Sim.cluster_bar) = (Ret (diag.FromErr "boom"), s', evs) ∧
     last evs = Some (ECall (CClusterDelete (Cluster_named "bar")
                               {| SkipRegistryCheck := false |}) None)).
Proof.
  assert (resourceClusterCreate (Sim.host Sim.run_fails) Sim.k3d_types
            (Sim.fresh Sim.cluster_bar) = Sim.create_bar_run_fails) as Hrun
    by (vm_compute; reflexivity).
  destruct (C2_failed_create_is_rolled_back
              (Sim.host Sim.run_fails) Sim.k3d_types
              (Sim.fresh Sim.cluster_bar) _ _ _ _ _ _ _ Hrun eq_refl)
    as (deleteErr & Hpost & Hok & _).
  injection Hpost as <-.
  pose proof (Hok eq_refl) as Hr.
  eexists _, _. split; [rewrite Hrun; reflexivity|reflexivity].
Defined.

(** C2 as stated fails in its "more severe": the diagnostic returned when
    the rollback fails too has the same severity, [Error], as the one of a
    plain creation failure. *)
Lemma C2_counterexample :
  ∃ s1 evs1 s2 evs2 plain rollback_failed,
    resourceClusterCreate (Sim.host Sim.run_fails) Sim.k3d_types
      (Sim.fresh Sim.cluster_bar) = (Ret [plain], s1, evs1) ∧
    resourceClusterCreate (Sim.host Sim.run_and_delete_fail) Sim.k3d_types
      (Sim.fresh Sim.cluster_bar) = (Ret [rollback_failed], s2, evs2) ∧
    existsb (failed is_ClusterRun) evs2 = true ∧
    last evs2 = Some (ECall (CClusterDelete (Cluster_named "bar")
                               {| SkipRegistryCheck := false |})
                            (Some "bang")) ∧
    diag.Summary plain = "boom" ∧
    diag.Summary rollback_failed = rollback_failed_message ∧
    diag.Sev rollback_failed = diag.Sev plain ∧
    diag.more_severe (diag.Sev rollback_failed) (diag.Sev plain) = false.
Proof.
  assert (resourceClusterCreate (Sim.host Sim.run_fails) Sim.k3d_types
            (Sim.fresh Sim.cluster_bar) = Sim.create_bar_run_fails) as Hrun1
    by (vm_compute; reflexivity).
  assert (resourceClusterCreate (Sim.host Sim.run_and_delete_fail)
            Sim.k3d_types (Sim.fresh Sim.cluster_bar)
          = Sim.create_bar_run_and_delete_fail) as Hrun2
    by (vm_compute; reflexivity).
  eexists _, _, _, _, _, _.
  split; [rewrite Hrun1; reflexivity|].
  split; [rewrite Hrun2; reflexivity|].
  repeat split.
Qed.

(** ** Best-effort kubeconfig handling *)

(** C7: in a cluster Create whose [ClusterRun] succeeded, every kubeconfig
    merge is asked to update the existing entries and not to overwrite the
    file; every failed kubeconfig call (the merge of Create, the fetch of
    the Read that follows) is logged as a [[WARN]] line; a diagnostic that
    Create returns is the error of its last call, which is never a
    kubeconfig call; and when the fetch fails, Create returns no diagnostic
    at all.  The ID is set to the cluster name either way. *)
Theorem C7_kubeconfig_failures_are_warnings
    {W} (h : Collaborators W) (t : K3dTypes) s r s' evs :
  resourceClusterCreate h t s = (r, s', evs) →
  existsb (succeeded is_ClusterRun) evs = true →
  (∀ c out opts e,
     ECall (CKubeconfigGetWrite c out opts) e ∈ evs →
     UpdateExisting opts = true ∧ OverwriteExisting opts = false) ∧
  (∀ c e,
     is_Kubeconfig c = true → ECall c (Some e) ∈ evs →
     ELog ("[WARN] " +:+ e) ∈ evs) ∧
  (∀ ds,
     r = Ret ds → ds ≠ [] →
     ∃ c err,
       last evs = Some (ECall c (Some err)) ∧ is_Kubeconfig c = false ∧
       ds = diag.FromErr err) ∧
  (∀ c e, ECall (CKubeconfigGet c) (Some e) ∈ evs → r = Ret []) ∧
  Id s' = k3d_cluster.name (data s).
Proof.
  unfold resourceClusterCreate, resourceClusterRead, expandExposureOptions.
  intros H Hc.
  exec; try discriminate Hc.
  all: split_and!; [ intros ? ? ? ? Hin | intros ? ? Hk Hin
                   | intros ? Hr Hne | intros ? ? Hin | done ].
  all: in_events; simplify_eq; try done.
  all: try (repeat first [apply list_elem_of_here
                         | apply list_elem_of_further]).
  all: by eexists _, _.
Qed.

Lemma C7_witness :
  ∃ s' evs,
    resourceClusterCreate (Sim.host Sim.merge_and_fetch_fail) Sim.k3d_types
      (Sim.fresh Sim.cluster_bar_merge) = (Ret [], s', evs) ∧
    ELog "[WARN] cannot write" ∈ evs ∧ ELog "[WARN] cannot read" ∈ evs ∧
    Id s' = "bar".
Proof.
  assert (resourceClusterCreate (Sim.host Sim.merge_and_fetch_fail)
            Sim.k3d_types (Sim.fresh Sim.cluster_bar_merge)
          = Sim.create_bar_merge_fails) as Hrun by (vm_compute; reflexivity).
  destruct (C7_kubeconfig_failures_are_warnings
              (Sim.host Sim.merge_and_fetch_fail) Sim.k3d_types
              (Sim.fresh Sim.cluster_bar_merge) _ _ _ Hrun eq_refl)
    as (_ & Hlog & _ & Hnil & Hid).
  eexists _, _. split; [rewrite Hrun; reflexivity|]. split_and!.
  - apply (Hlog (CKubeconfigGetWrite (Cluster_named "bar") ""
                   {| UpdateExisting := true; OverwriteExisting := false;
                      UpdateCurrentContext := true |}) "cannot write");
      [reflexivity|].
    apply list_elem_of_lookup. exists 6%nat. reflexivity.
  - apply (Hlog (CKubeconfigGet {| cl_Name := "bar";
                                   cl_Network_Name := "k3d-bar";
                                   cl_Token := "secret" |}) "cannot read");
      [reflexivity|].
    apply list_elem_of_lookup. exists 12%nat. reflexivity.
  - exact Hid.
Defined.

(** ** The diagnostics given to the host *)

Lemma prefix_refl (s : string) : String.prefix s s = true.
Proof.
  induction s as [|a s IH]; simpl; [done|].
  by destruct (Ascii.ascii_dec a a).
Qed.

Lemma contains_prefix (s sub : string) :
  String.prefix sub s = true → contains s sub = true.
Proof. intros Hp. destruct s; cbn [contains]; by rewrite Hp. Qed.

Lemma contains_refl (s : string) : contains s s = true.
Proof. apply contains_prefix, prefix_refl. Qed.

Lemma FromErr_contains (err : error) :
  Forall (λ d, contains (diag.Summary d) err = true) (diag.FromErr err).
Proof. repeat constructor. simpl. apply contains_refl. Qed.

(** C8, as the code has it: a diagnostic returned by Create, Read or Delete
    of a cluster, node or registry (and by the Read of a data source) is
    the text of the error of the call that made the operation fail, which
    is the last failed call of the run: the last call of all, or the
    [ClusterRun] whose rollback succeeded.  There are two exceptions in
    the cluster Create, which carry a fixed text: the already-exists
    error, where the lookup returned no error, and the rollback-failed
    error, which names neither the creation error nor the deletion
    error. *)
Theorem C8_errors_carry_the_collaborator_text
    {W} (h : Collaborators W) (t : K3dTypes) :
  errors_explained (resourceClusterCreate h t) ∧
  errors_explained (resourceClusterRead h t) ∧
  errors_explained (resourceClusterDelete h) ∧
  errors_explained (resourceNodeCreate h t) ∧
  errors_explained (resourceNodeRead h t) ∧
  errors_explained (resourceNodeDelete h t) ∧
  errors_explained (resourceRegistryCreate h t) ∧
  errors_explained (resourceRegistryRead h t) ∧
  errors_explained (resourceRegistryDelete h t) ∧
  errors_explained (dataSourceClusterRead h) ∧
  errors_explained (dataSourceNodeRead h t) ∧
  errors_explained (dataSourceRegistryRead h t).
Proof.
  split_and!; intros s r s' evs ds H Hr Hne.
  all: unfold resourceClusterCreate, resourceClusterRead,
         resourceClusterDelete, resourceNodeCreate, resourceNodeRead,
         resourceNodeDelete, resourceRegistryCreate, resourceRegistryRead,
         resourceRegistryDelete, dataSourceClusterRead, dataSourceNodeRead,
         dataSourceRegistryRead, expandExposureOptions,
         expandExposureOpts in H.
  all: exec; try done.
  all: try (right; left; split; [reflexivity|]; by eexists).
  all: try (right; right; split; [reflexivity|];
            by eexists [_; _; _; _; _], _, _, _, _, _).
  all: left; eexists _, _; split_and!;
         [reflexivity|reflexivity|apply FromErr_contains|].
  all: first [by left | right; by eexists _, _, _].
Qed.

Lemma C8_witness :
  ∃ s' evs,
    resourceClusterCreate (Sim.host Sim.validate_fails) Sim.k3d_types
      (Sim.fresh Sim.cluster_bar)
    = (Ret (diag.FromErr "invalid configuration"), s', evs) ∧
    diagnostics_explained evs (diag.FromErr "invalid configuration").
Proof.
  assert (resourceClusterCreate (Sim.host Sim.validate_fails) Sim.k3d_types
            (Sim.fresh Sim.cluster_bar) = Sim.create_bar_invalid) as Hrun
    by (vm_compute; reflexivity).
  destruct (C8_errors_carry_the_collaborator_text
              (Sim.host Sim.validate_fails) Sim.k3d_types) as (Hcreate & _).
  eexists _, _. split; [rewrite Hrun; reflexivity|].
  apply (Hcreate (Sim.fresh Sim.cluster_bar) _ _ _ _ Hrun eq_refl).
  discriminate.
Defined.

(** C8 as stated fails for the rollback-failed error: when [ClusterRun]
    fails with [boom] and the compensating [ClusterDelete] with [bang], the
    one diagnostic returned has the fixed summary and an empty detail;
    neither text occurs in it. *)
Lemma C8_counterexample :
  ∃ s' evs d,
    resourceClusterCreate (Sim.host Sim.run_and_delete_fail) Sim.k3d_types
      (Sim.fresh Sim.cluster_bar) = (Ret [d], s', evs) ∧
    (∃ cc, evs !! 5%nat = Some (ECall (CClusterRun cc) (Some "boom"))) ∧
    last evs = Some (ECall (CClusterDelete (Cluster_named "bar")
                              {| SkipRegistryCheck := false |})
                           (Some "bang")) ∧
    diag.Summary d
    = "Cluster creation FAILED, also FAILED to rollback changes!" ∧
    diag.Detail d = "" ∧
    contains (diag.Summary d) "boom" = false ∧
    contains (diag.Summary d) "bang" = false.
Proof.
  assert (resourceClusterCreate (Sim.host Sim.run_and_delete_fail)
            Sim.k3d_types (Sim.fresh Sim.cluster_bar)
          = Sim.create_bar_run_and_delete_fail) as Hrun
    by (vm_compute; reflexivity).
  eexists _, _, _. split; [rewrite Hrun; reflexivity|].
  split; [by eexists|]. split_and!; reflexivity.
Qed.

(** ** When the ID is assigned *)



(** C9 as stated fails for an error of the read-back: when [ClusterRun]
    succeeds and the lookup of the Read that follows finds nothing, Create
    returns that error and the ID is set, here to [bar]. *)
Lemma C9_counterexample :
  ∃ s' evs,
    resourceClusterCreate Sim.host_vanishing Sim.k3d_types
      (Sim.fresh Sim.cluster_bar)
    = (Ret (diag.FromErr "No nodes found for given cluster"), s', evs) ∧
    existsb (succeeded is_ClusterRun) evs = true ∧ Id s' = "bar".
Proof.
  assert (resourceClusterCreate Sim.host_vanishing Sim.k3d_types
            (Sim.fresh Sim.cluster_bar) = Sim.create_bar_vanishing) as Hrun
    by (vm_compute; reflexivity).
  eexists _, _. split; [rewrite Hrun; reflexivity|]. split; reflexivity.
Qed.

(** * Further properties of the helpers and call chains *)

(** ** The loops of the expansion helpers *)

Lemma range_append_Panic {A B} (body : A → res B) (l : list A) (out : list B) :
  Exists (λ i, body i = Panic) l → range_append body l out = Panic.
Proof.
  intros HE. revert out. induction HE as [i l Hi|i l _ IH]; intros out; simpl.
  - by rewrite Hi.
  - destruct (body i); simpl; [apply IH|done].
Qed.

Lemma range_append_length {A B} (body : A → res B) (l : list A) (r : list B) :
  range_append body l [] = Ret r → length r = length l.
Proof.
  intros H. apply range_append_Ret in H as (bs & -> & HF).
  simpl. symmetry. by eapply Forall2_length.
Qed.

Lemma range_append_assert {A} (vs out : list A) :
  range_append assert (Some <$> vs) out = Ret (out ++ vs).
Proof.
  revert out. induction vs as [|v vs IH]; intros out; simpl.
  - by rewrite app_nil_r.
  - rewrite IH. by rewrite <- app_assoc.
Qed.

(** A loop whose body starts with the type assertion of the element. *)
Lemma guarded_loop_intro {A B} (f : list (option A) → res (list B))
    (body : option A → res B) :
  (∀ l, f l = if empty_or_nil l then Ret [] else range_append body l []) →
  body None = Panic →
  guarded_loop f.
Proof.
  intros Hf Hnil. split_and!.
  - by rewrite Hf.
  - intros rest. by rewrite Hf.
  - intros v rest Hin. rewrite Hf. simpl.
    destruct (body (Some v)); simpl; [|done].
    apply range_append_Panic, Exists_exists. by exists None.
  - intros l out H Hg. rewrite Hf, Hg in H. by eapply range_append_length.
Qed.

(** X1: every expansion helper with the guard [len(l) == 0 || l[0] == nil]
    returns nothing for an empty list and for a list whose first element is
    nil, whatever blocks follow; panics when the first element is a block
    and a later element is nil; and otherwise, when it returns, gives one
    entry per element. *)
Theorem expansion_helpers_are_guarded_loops :
  guarded_loop expandNodeFilters ∧
  guarded_loop expandEnvVars ∧
  guarded_loop expandLabels ∧
  guarded_loop expandPorts ∧
  guarded_loop expandVolumes ∧
  guarded_loop expandRegistryVolumes.
Proof.
  split_and!; (eapply guarded_loop_intro; [intros l; reflexivity|reflexivity]).
Qed.

Lemma expansion_helpers_are_guarded_loops_witness :
  expandPorts [None; Some Sim.port_80] = Ret [] ∧
  expandPorts [Some Sim.port_80; None] = Panic ∧
  (∃ out, expandPorts [Some Sim.port_80; Some Sim.port_80] = Ret out ∧
          length out = 2%nat).
Proof.
  destruct expansion_helpers_are_guarded_loops
    as (_ & _ & _ & (_ & Hnil & Hpanic & Hlen) & _).
  split; [apply Hnil|]. split.
  - apply Hpanic. apply list_elem_of_here.
  - eexists. split; [reflexivity|].
    apply (Hlen [Some Sim.port_80; Some Sim.port_80] _ eq_refl eq_refl).
Defined.

(** X2: on node filters that are all present, [expandNodeFilters] returns
    them as they are, in their order. *)
Theorem expandNodeFilters_keeps_the_filters (fs : list string) :
  expandNodeFilters (Some <$> fs) = Ret fs.
Proof.
  unfold expandNodeFilters. destruct fs as [|f fs]; [done|].
  change (empty_or_nil (Some <$> f :: fs)) with false. cbv iota.
  apply (range_append_assert (f :: fs) []).
Qed.

(** ** Environment variables and labels *)

Lemma contains_cons_false (a : Ascii.ascii) (s sub : string) :
  contains (String a s) sub = false →
  String.prefix sub (String a s) = false ∧ contains s sub = false.
Proof. cbn [contains]. intros H. by apply orb_false_elim in H. Qed.

Lemma eq_sign_head (s : string) : contains ("=" +:+ s) "=" = true.
Proof. by destruct s. Qed.

(** [key=value] can be read back when the key has no [=]. *)
Lemma key_value_inj (k1 v1 k2 v2 : string) :
  contains k1 "=" = false → contains k2 "=" = false →
  k1 +:+ "=" +:+ v1 = k2 +:+ "=" +:+ v2 →
  k1 = k2 ∧ v1 = v2.
Proof.
  revert k2. induction k1 as [|a k1 IH]; intros [|b k2] H1 H2 Heq; simpl in Heq.
  - by simplify_eq.
  - injection Heq as <- _.
    change (contains ("=" +:+ k2) "=" = false) in H2.
    by rewrite eq_sign_head in H2.
  - injection Heq as -> _.
    change (contains ("=" +:+ k1) "=" = false) in H1.
    by rewrite eq_sign_head in H1.
  - injection Heq as -> Heq.
    apply contains_cons_false in H1 as [_ H1].
    apply contains_cons_false in H2 as [_ H2].
    destruct (IH k2 H1 H2 Heq) as [-> ->]. done.
Qed.

(** X3: the entry of an [env] block and of a [label] block is [key=value],
    with the block's node filters expanded beside it; a block without
    value gives [key=].  The encoding loses nothing as long as keys have no
    [=]: two blocks with such keys and the same entry have the same key and
    the same value. *)
Theorem env_and_label_entries_are_key_value :
  (∀ l out i v,
     expandEnvVars l = Ret out → empty_or_nil l = false →
     l !! i = Some (Some v) →
     ∃ w, out !! i = Some w ∧
       EnvVar w = kv_key v +:+ "=" +:+ kv_value v ∧
       expandNodeFilters (kv_node_filters v) = Ret (env_NodeFilters w)) ∧
  (∀ l out i v,
     expandLabels l = Ret out → empty_or_nil l = false →
     l !! i = Some (Some v) →
     ∃ w, out !! i = Some w ∧
       Label w = kv_key v +:+ "=" +:+ kv_value v ∧
       expandNodeFilters (kv_node_filters v) = Ret (label_NodeFilters w)) ∧
  (∀ v1 v2,
     contains (kv_key v1) "=" = false → contains (kv_key v2) "=" = false →
     kv_key v1 +:+ "=" +:+ kv_value v1 = kv_key v2 +:+ "=" +:+ kv_value v2 →
     kv_key v1 = kv_key v2 ∧ kv_value v1 = kv_value v2).
Proof.
  split_and!.
  - intros l out i v H Hg Hi. unfold expandEnvVars in H. rewrite Hg in H.
    destruct (range_append_lookup _ _ _ _ _ H Hi) as (w & Hw & Hb).
    exists w. split; [done|]. simpl in Hb.
    destruct (expandNodeFilters _); by simplify_eq/=.
  - intros l out i v H Hg Hi. unfold expandLabels in H. rewrite Hg in H.
    destruct (range_append_lookup _ _ _ _ _ H Hi) as (w & Hw & Hb).
    exists w. split; [done|]. simpl in Hb.
    destruct (expandNodeFilters _); by simplify_eq/=.
  - intros v1 v2. apply key_value_inj.
Qed.

Lemma env_and_label_entries_are_key_value_witness :
  (∃ w, expandEnvVars [Some Scenarios.env_bar] = Ret [w] ∧
        EnvVar w = "bar=baz" ∧ env_NodeFilters w = ["server[0]"]) ∧
  (∃ w, expandLabels [Some Scenarios.label_foo] = Ret [w] ∧
        Label w = "foo=bar") ∧
  kv_value Scenarios.env_bar = "baz".
Proof.
  destruct env_and_label_entries_are_key_value as (He & Hl & Hinj).
  split_and!.
  - destruct (He [Some Scenarios.env_bar] _ 0%nat _ eq_refl eq_refl eq_refl)
      as (w & Hw & Hentry & Hnf).
    exists w. split; [injection Hw as <-; reflexivity|].
    split; [exact Hentry|]. injection Hnf as <-. reflexivity.
  - destruct (Hl [Some Scenarios.label_foo] _ 0%nat _ eq_refl eq_refl
                eq_refl) as (w & Hw & Hentry & _).
    exists w. split; [injection Hw as <-; reflexivity|exact Hentry].
  - exact (proj2 (Hinj Scenarios.env_bar
                   {| kv_key := "bar"; kv_value := "baz";
                      kv_node_filters := [] |} eq_refl eq_refl eq_refl)).
Defined.

(** ** The registries block *)



(** ** What a cluster Create hands to k3d *)

(** X5: the options of the configuration that a cluster Create hands to the
    k3d transformation are the results of the four option helpers and
    nothing else.  The labels are expanded (so a bad label block still
    panics) but are not part of what k3d receives; [Wait] is always on,
    and the timeout and [NoRollback] always off. *)
Theorem labels_never_reach_k3d
    {W} (h : Collaborators W) (t : K3dTypes) s r s' evs sc e :
  resourceClusterCreate h t s = (r, s', evs) →
  ECall (CTransformSimpleToClusterConfig sc) e ∈ evs →
  (∃ labels, expandLabels (k3d_cluster.label (data s)) = Ret labels) ∧
  Labels (Runtime (Options sc)) = [] ∧
  K3dOptions (Options sc) = expandConfigOptionsK3d (k3d_cluster.k3d (data s)) ∧
  expandConfigOptionsK3s (k3d_cluster.k3s (data s))
  = Ret (K3sOptions (Options sc)) ∧
  KubeconfigOptions (Options sc)
  = expandConfigOptionsKubeconfig (k3d_cluster.kubeconfig (data s)) ∧
  Runtime (Options sc)
  = expandConfigOptionsRuntime (k3d_cluster.runtime (data s)) ∧
  Wait (K3dOptions (Options sc)) = true ∧
  k3d_Timeout (K3dOptions (Options sc)) = 0 ∧
  NoRollback (K3dOptions (Options sc)) = false.
Proof.
  unfold resourceClusterCreate, resourceClusterRead, expandExposureOptions.
  intros H Hin.
  exec; in_events; simplify_eq.
  all: cbn [Options Runtime K3dOptions K3sOptions KubeconfigOptions
              with_Registries with_Options].
  all: split_and!; try done; try (by eexists).
  all: try (by destruct (k3d_cluster.runtime _) as [|[?|] ?]).
  all: by destruct (k3d_cluster.k3d _) as [|[?|] ?].
Qed.

Lemma labels_never_reach_k3d_witness :
  ∃ s' evs sc,
    resourceClusterCreate (Sim.host Sim.no_faults) Sim.k3d_types
      (Sim.fresh Scenarios.cluster_labelled) = (Ret [], s', evs) ∧
    evs !! 1%nat = Some (ECall (CTransformSimpleToClusterConfig sc) None) ∧
    Labels (Runtime (Options sc)) = [] ∧
    (∃ w, Env sc = [w] ∧ EnvVar w = "bar=baz").
Proof.
  assert (resourceClusterCreate (Sim.host Sim.no_faults) Sim.k3d_types
            (Sim.fresh Scenarios.cluster_labelled)
          = Scenarios.create_labelled) as Hrun by (vm_compute; reflexivity).
  eassert (ECall (CTransformSimpleToClusterConfig _) None
           ∈ Scenarios.create_labelled.2) as Hin.
  { apply list_elem_of_lookup. exists 1%nat. reflexivity. }
  destruct (labels_never_reach_k3d _ _ _ _ _ _ _ _ Hrun Hin)
    as (_ & Hlabels & _).
  eexists _, _, _. split; [rewrite Hrun; reflexivity|].
  split; [reflexivity|]. split; [exact Hlabels|].
  eexists. split; reflexivity.
Defined.

(** X6: the API exposure of a cluster Create.  One free port is asked for,
    first of all and always, also when [kube_api] gives a host port.  The
    [HostPort] handed to k3d is the block's [host_port] in decimal when it
    is not zero, and the free port otherwise (no block, or no host port);
    the error of [GetFreePort] is never looked at, so a failed lookup, which
    answers port 0, gives the host port ["0"]. *)
Theorem kube_api_host_port
    {W} (h : Collaborators W) (t : K3dTypes) s r s' evs sc e p pe w :
  resourceClusterCreate h t s = (r, s', evs) →
  GetFreePort h (world s) = (p, pe, w) →
  ECall (CTransformSimpleToClusterConfig sc) e ∈ evs →
  hd_error evs = Some (ECall CGetFreePort pe) ∧
  count (called is_GetFreePort) evs = 1%nat ∧
  ExposeAPI sc
  = match k3d_cluster.kube_api (data s) with
    | Some v :: _ =>
        {| Host := exp_host v; HostIP := exp_host_ip v;
           HostPort := fmt_d (if exp_host_port v =? 0 then p
                              else exp_host_port v) |}
    | _ => {| Host := ""; HostIP := ""; HostPort := fmt_d p |}
    end.
Proof.
  unfold resourceClusterCreate, resourceClusterRead, expandExposureOptions.
  intros H Hfree Hin.
  exec; in_events; simplify_eq.
  all: split_and!; [reflexivity|reflexivity|].
  all: cbn [ExposeAPI with_Registries with_Options].
  all: by destruct (k3d_cluster.kube_api _) as [|[?|] ?].
Qed.

Lemma kube_api_host_port_witness :
  ∃ s' evs sc,
    resourceClusterCreate (Sim.host Sim.no_faults) Sim.k3d_types
      (Sim.fresh Scenarios.cluster_labelled) = (Ret [], s', evs) ∧
    evs !! 1%nat = Some (ECall (CTransformSimpleToClusterConfig sc) None) ∧
    ExposeAPI sc = {| Host := "myhost.my.domain"; HostIP := "127.0.0.1";
                      HostPort := "6445" |} ∧
    count (called is_GetFreePort) evs = 1%nat.
Proof.
  assert (resourceClusterCreate (Sim.host Sim.no_faults) Sim.k3d_types
            (Sim.fresh Scenarios.cluster_labelled)
          = Scenarios.create_labelled) as Hrun by (vm_compute; reflexivity).
  eassert (ECall (CTransformSimpleToClusterConfig _) None
           ∈ Scenarios.create_labelled.2) as Hin.
  { apply list_elem_of_lookup. exists 1%nat. reflexivity. }
  destruct (kube_api_host_port (Sim.host Sim.no_faults) Sim.k3d_types
              (Sim.fresh Scenarios.cluster_labelled) _ _ _ _ _
              40000 None _ Hrun eq_refl Hin) as (_ & Hcount & Hexpose).
  eexists _, _, _. split; [rewrite Hrun; reflexivity|].
  split; [reflexivity|]. split; [exact Hexpose|exact Hcount].
Defined.

(** ** The order of a cluster Create *)

(** X7: [ClusterRun] is only called at the end of one fixed sequence: the
    free port, a successful transformation, a successful processing, a
    successful validation of the very configuration that is then run, and a
    lookup of that configuration's cluster that returned an error.  Any
    error of the lookup counts as "no such cluster". *)
Theorem cluster_is_run_only_after_the_checks
    {W} (h : Collaborators W) (t : K3dTypes) s r s' evs pre cc e post :
  resourceClusterCreate h t s = (r, s', evs) →
  split_at (called is_ClusterRun) evs
    = Some (pre, ECall (CClusterRun cc) e, post) →
  ∃ pe sc cc0 err,
    pre = [ ECall CGetFreePort pe;
            ECall (CTransformSimpleToClusterConfig sc) None;
            ECall (CProcessClusterConfig cc0) None;
            ECall (CValidateClusterConfig cc) None;
            ECall (CClusterGet (cc_Cluster cc)) (Some err) ] ∧
    count (called is_ClusterRun) evs = 1%nat.
Proof.
  unfold resourceClusterCreate, resourceClusterRead, expandExposureOptions.
  intros H Hsplit.
  exec; cbn in Hsplit; simplify_eq.
  all: by eexists _, _, _, _.
Qed.

Lemma cluster_is_run_only_after_the_checks_witness :
  ∃ s' evs pre e post,
    resourceClusterCreate (Sim.host Sim.no_faults) Sim.k3d_types
      (Sim.fresh Sim.cluster_bar) = (Ret [], s', evs) ∧
    split_at (called is_ClusterRun) evs = Some (pre, e, post) ∧
    length pre = 5%nat.
Proof.
  assert (resourceClusterCreate (Sim.host Sim.no_faults) Sim.k3d_types
            (Sim.fresh Sim.cluster_bar) = Sim.create_bar) as Hrun
    by (vm_compute; reflexivity).
  destruct (cluster_is_run_only_after_the_checks
              (Sim.host Sim.no_faults) Sim.k3d_types
              (Sim.fresh Sim.cluster_bar) _ _ _ _ _ _ _ Hrun eq_refl)
    as (pe & sc & cc0 & err & Hpre & _).
  eexists _, _, _, _, _. split; [rewrite Hrun; reflexivity|].
  split; [reflexivity|]. exact (f_equal length Hpre).
Defined.

(** X8: a cluster Create deletes nothing it did not just fail to create:
    every [ClusterDelete] of a run follows a failed [ClusterRun] of the
    same run, is the last call, names the cluster by the resource's [name]
    with the registry check on, and the run sets no ID.  [ClusterRun] is
    never tried a second time. *)
Theorem rollback_only_after_a_failed_run
    {W} (h : Collaborators W) (t : K3dTypes) s r s' evs :
  resourceClusterCreate h t s = (r, s', evs) →
  (count (called is_ClusterRun) evs ≤ 1)%nat ∧
  (count (called is_ClusterDelete) evs ≤ 1)%nat ∧
  (∀ c opts e,
     ECall (CClusterDelete c opts) e ∈ evs →
     existsb (failed is_ClusterRun) evs = true ∧
     last evs = Some (ECall (CClusterDelete c opts) e) ∧
     c = Cluster_named (k3d_cluster.name (data s)) ∧
     SkipRegistryCheck opts = false ∧
     existsb is_SetId evs = false ∧ Id s' = Id s).
Proof.
  unfold resourceClusterCreate, resourceClusterRead, expandExposureOptions.
  intros H.
  exec.
  all: split_and!; [cbn; lia|cbn; lia|intros ? ? ? Hin].
  all: in_events; by simplify_eq.
Qed.

Lemma rollback_only_after_a_failed_run_witness :
  ∃ r s' evs,
    resourceClusterCreate (Sim.host Sim.run_fails) Sim.k3d_types
      (Sim.fresh Sim.cluster_bar) = (r, s', evs) ∧
    existsb (failed is_ClusterRun) evs = true ∧ Id s' = "".
Proof.
  assert (resourceClusterCreate (Sim.host Sim.run_fails) Sim.k3d_types
            (Sim.fresh Sim.cluster_bar) = Sim.create_bar_run_fails) as Hrun
    by (vm_compute; reflexivity).
  destruct (rollback_only_after_a_failed_run _ _ _ _ _ _ Hrun)
    as (_ & _ & Hdel).
  assert (ECall (CClusterDelete (Cluster_named "bar")
                   {| SkipRegistryCheck := false |}) None
          ∈ Sim.create_bar_run_fails.2) as Hin.
  { apply list_elem_of_lookup. exists 6%nat. reflexivity. }
  destruct (Hdel _ _ _ Hin) as (Hfailed & _ & _ & _ & _ & Hid).
  eexists _, _, _. split; [exact Hrun|]. split; [exact Hfailed|exact Hid].
Defined.

(** X9: the kubeconfig merge of a cluster Create happens exactly when
    [ClusterRun] succeeded and the configuration that was run has
    [UpdateDefaultKubeconfig] on (the flag as k3d's transformation and
    processing left it, not the block's attribute); it is called once, on
    that configuration's cluster, with the empty output path, and its
    [UpdateCurrentContext] is the [switch_current_context] of the
    [kubeconfig] block ([false] without a block). *)
Theorem kubeconfig_merge_conditions
    {W} (h : Collaborators W) (t : K3dTypes) s r s' evs :
  resourceClusterCreate h t s = (r, s', evs) →
  (∀ c out opts e,
     ECall (CKubeconfigGetWrite c out opts) e ∈ evs →
     ∃ cc,
       ECall (CClusterRun cc) None ∈ evs ∧
       UpdateDefaultKubeconfig (cc_KubeconfigOpts cc) = true ∧
       c = cc_Cluster cc ∧ out = "" ∧
       UpdateCurrentContext opts
       = SwitchCurrentContext
           (expandConfigOptionsKubeconfig
              (k3d_cluster.kubeconfig (data s)))) ∧
  (∀ cc,
     ECall (CClusterRun cc) None ∈ evs →
     count (called is_KubeconfigGetWrite) evs
     = if UpdateDefaultKubeconfig (cc_KubeconfigOpts cc) then 1%nat
       else 0%nat).
Proof.
  unfold resourceClusterCreate, resourceClusterRead, expandExposureOptions.
  intros H.
  exec.
  all: split; [intros ? ? ? ? Hin|intros ? Hin].
  all: in_events; simplify_eq.
  all: try match goal with
           | Hu : UpdateDefaultKubeconfig _ = _ |- _ => rewrite Hu
           end.
  all: try reflexivity.
  all: eexists; split_and!; try reflexivity; try done.
  all: repeat first [apply list_elem_of_here | apply list_elem_of_further].
Qed.

Lemma kubeconfig_merge_conditions_witness :
  ∃ s' evs,
    resourceClusterCreate (Sim.host Sim.merge_and_fetch_fail) Sim.k3d_types
      (Sim.fresh Sim.cluster_bar_merge) = (Ret [], s', evs) ∧
    count (called is_KubeconfigGetWrite) evs = 1%nat.
Proof.
  assert (resourceClusterCreate (Sim.host Sim.merge_and_fetch_fail)
            Sim.k3d_types (Sim.fresh Sim.cluster_bar_merge)
          = Sim.create_bar_merge_fails) as Hrun by (vm_compute; reflexivity).
  destruct (kubeconfig_merge_conditions _ _ _ _ _ _ Hrun) as (_ & Hcount).
  eassert (ECall (CClusterRun _) None ∈ Sim.create_bar_merge_fails.2)
    as Hin.
  { apply list_elem_of_lookup. exists 5%nat. reflexivity. }
  eexists _, _. split; [rewrite Hrun; reflexivity|].
  exact (Hcount _ Hin).
Defined.

(** X10: a cluster Create panics in two places only.  Either one of the
    expansion helpers panics, and then nothing but the free-port lookup
    has been called, and the resource data and ID are untouched; or the
    cluster has been created and the ID set, the kubeconfig has been
    fetched without error, and flattening its credentials panics. *)
Theorem create_panics_in_two_places
    {W} (h : Collaborators W) (t : K3dTypes) s s' evs :
  resourceClusterCreate h t s = (Panic, s', evs) →
  (Forall (λ e, called is_GetFreePort e = true) evs ∧
   Id s' = Id s ∧ data s' = data s) ∨
  (existsb (succeeded is_ClusterRun) evs = true ∧
   Id s' = k3d_cluster.name (data s) ∧
   ∃ c, last evs = Some (ECall (CKubeconfigGet c) None)).
Proof.
  unfold resourceClusterCreate, resourceClusterRead, expandExposureOptions.
  intros H.
  exec.
  all: try (left; split_and!; [by repeat constructor|done|done]).
  all: right; split_and!; [done|done|by eexists].
Qed.

Lemma create_panics_in_two_places_witness :
  (∃ s' evs,
     resourceClusterCreate (Sim.host Sim.no_faults) Sim.k3d_types
       (Sim.fresh Scenarios.cluster_bad_label) = (Panic, s', evs) ∧
     Forall (λ e, called is_GetFreePort e = true) evs) ∧
  (∃ s' evs,
     resourceClusterCreate (Sim.host Sim.bare) Sim.k3d_types
       (Sim.fresh Sim.cluster_bar) = (Panic, s', evs) ∧ Id s' = "bar").
Proof.
  assert (resourceClusterCreate (Sim.host Sim.no_faults) Sim.k3d_types
            (Sim.fresh Scenarios.cluster_bad_label)
          = Scenarios.create_bad_label) as Hrun1 by (vm_compute; reflexivity).
  assert (resourceClusterCreate (Sim.host Sim.bare) Sim.k3d_types
            (Sim.fresh Sim.cluster_bar) = Scenarios.create_bare) as Hrun2
    by (vm_compute; reflexivity).
  split.
  - destruct (create_panics_in_two_places _ _ _ _ _ Hrun1)
      as [(Hall & _)|(Hc & _)]; [|discriminate Hc].
    eexists _, _. split; [exact Hrun1|exact Hall].
  - destruct (create_panics_in_two_places _ _ _ _ _ Hrun2)
      as [(_ & Hid & _)|(_ & Hid & _)]; [discriminate Hid|].
    eexists _, _. split; [exact Hrun2|exact Hid].
Defined.

(** ** Nodes and registries *)

(** X11: all that the Create, Read and Delete of a node and of a registry
    and the Read of their data sources do is about one runtime node, named
    [<prefix>-<name>]: the node that is added, the registry that is run,
    every lookup, every delete and every ID that is set.  None of them
    calls a cluster operation.  So a node and a registry of the same name
    are the same runtime object to the provider. *)
Theorem node_and_registry_address_one_runtime_node
    {W} (h : Collaborators W) (t : K3dTypes) :
  addresses_node (resourceNodeCreate h t) (λ d, prefixed t (k3d_node.name d)) ∧
  addresses_node (resourceNodeRead h t) (λ d, prefixed t (k3d_node.name d)) ∧
  addresses_node (resourceNodeDelete h t)
    (λ d, prefixed t (k3d_node.name d)) ∧
  addresses_node (dataSourceNodeRead h t)
    (λ d, prefixed t (data_k3d_node.name d)) ∧
  addresses_node (resourceRegistryCreate h t)
    (λ d, prefixed t (k3d_registry.name d)) ∧
  addresses_node (resourceRegistryRead h t)
    (λ d, prefixed t (k3d_registry.name d)) ∧
  addresses_node (resourceRegistryDelete h t)
    (λ d, prefixed t (k3d_registry.name d)) ∧
  addresses_node (dataSourceRegistryRead h t)
    (λ d, prefixed t (data_k3d_registry.name d)).
Proof.
  split_and!; intros s r s' evs H.
  all: unfold resourceNodeCreate, resourceNodeRead, resourceNodeDelete,
         dataSourceNodeRead, resourceRegistryCreate, resourceRegistryRead,
         resourceRegistryDelete, dataSourceRegistryRead,
         expandExposureOpts in H.
  all: exec; by repeat constructor.
Qed.

Lemma node_and_registry_address_one_runtime_node_witness :
  ∃ s' evs,
    resourceNodeCreate (Sim.host Sim.no_faults) Sim.k3d_types
      (Sim.fresh Sim.node_bar) = (Ret [], s', evs) ∧
    Forall (names_node "k3d-bar") evs ∧ length evs = 3%nat.
Proof.
  destruct (node_and_registry_address_one_runtime_node
              (Sim.host Sim.no_faults) Sim.k3d_types) as (Hcreate & _).
  assert (resourceNodeCreate (Sim.host Sim.no_faults) Sim.k3d_types
            (Sim.fresh Sim.node_bar) = Sim.create_node_bar) as Hrun
    by (vm_compute; reflexivity).
  eexists _, _. split; [rewrite Hrun; reflexivity|].
  split; [exact (Hcreate _ _ _ _ Hrun)|reflexivity].
Defined.

(** X12: the Read and the Delete of a registry are the Read and the Delete
    of the node of the same name: in the same world they make the same
    call, return the same diagnostics and leave the same world.  Deleting
    the registry [x] deletes what the node resource [x] manages. *)
Theorem registry_read_and_delete_are_node_read_and_delete
    {W} (h : Collaborators W) (t : K3dTypes)
    (s1 : St W k3d_registry.attrs) (s2 : St W k3d_node.attrs) :
  world s1 = world s2 →
  k3d_registry.name (data s1) = k3d_node.name (data s2) →
  (resourceRegistryRead h t s1).1.1 = (resourceNodeRead h t s2).1.1 ∧
  (resourceRegistryRead h t s1).2 = (resourceNodeRead h t s2).2 ∧
  world (resourceRegistryRead h t s1).1.2
  = world (resourceNodeRead h t s2).1.2 ∧
  (resourceRegistryDelete h t s1).1.1 = (resourceNodeDelete h t s2).1.1 ∧
  (resourceRegistryDelete h t s1).2 = (resourceNodeDelete h t s2).2 ∧
  world (resourceRegistryDelete h t s1).1.2
  = world (resourceNodeDelete h t s2).1.2.
Proof.
  intros Hw Hn.
  unfold resourceRegistryRead, resourceNodeRead, resourceRegistryDelete,
    resourceNodeDelete, mbind, M_mbind, M_bind, get_data, call_r, call_e.
  cbn [data world Id]. rewrite Hw, Hn.
  destruct (NodeGet h _ (world s2)) as [[n|e] w].
  all: destruct (NodeDelete h _ (world s2)) as [[e'|] w'].
  all: by cbn.
Qed.

Lemma registry_read_and_delete_are_node_read_and_delete_witness :
  (resourceRegistryDelete (Sim.host Sim.no_faults) Sim.k3d_types
     (mkSt Scenarios.world_with_node Sim.registry_bar "k3d-bar")).2
  = [ECall (CNodeDelete (Node_named "k3d-bar")) None] ∧
  Sim.nodes
    (world (resourceRegistryDelete (Sim.host Sim.no_faults) Sim.k3d_types
              (mkSt Scenarios.world_with_node Sim.registry_bar
                    "k3d-bar")).1.2)
  = Sim.nodes
      (world (resourceNodeDelete (Sim.host Sim.no_faults) Sim.k3d_types
                (mkSt Scenarios.world_with_node Sim.node_bar "k3d-bar")).1.2).
Proof.
  destruct (registry_read_and_delete_are_node_read_and_delete
              (Sim.host Sim.no_faults) Sim.k3d_types
              (mkSt Scenarios.world_with_node Sim.registry_bar "k3d-bar")
              (mkSt Scenarios.world_with_node Sim.node_bar "k3d-bar")
              eq_refl eq_refl) as (_ & _ & _ & _ & Hevs & Hworld).
  split; [vm_compute; reflexivity|].
  exact (f_equal Sim.nodes Hworld).
Defined.

(** X13: what a registry Create runs.  The registry handed to
    [RegistryRun] has the host [<prefix>-<name>], the image, proxy and
    expanded volumes of the resource, the default registry port, the
    [host_ip] of the [port] block, and as host port the block's [host_port]
    when it is not zero and a free port otherwise.  The [host] attribute of
    the [port] block is not used. *)
Theorem registry_is_run_as_declared
    {W} (h : Collaborators W) (t : K3dTypes) s r s' evs reg e p pe w :
  resourceRegistryCreate h t s = (r, s', evs) →
  GetFreePort h (world s) = (p, pe, w) →
  ECall (CRegistryRun reg) e ∈ evs →
  registry_Host reg = prefixed t (k3d_registry.name (data s)) ∧
  registry_Image reg = k3d_registry.image (data s) ∧
  expandRegistryVolumes (k3d_registry.volume (data s))
  = Ret (registry_Volumes reg) ∧
  registry_Proxy reg
  = {| RemoteURL := k3d_registry.proxy_remote_url (data s);
       Username := k3d_registry.proxy_username (data s);
       Password := k3d_registry.proxy_password (data s) |} ∧
  pm_Port (registry_ExposureOpts reg) = DefaultRegistryPort t ∧
  pm_Binding (registry_ExposureOpts reg)
  = match k3d_registry.port (data s) with
    | Some v :: _ =>
        {| pb_HostIP := exp_host_ip v;
           pb_HostPort := fmt_d (if exp_host_port v =? 0 then p
                                 else exp_host_port v) |}
    | _ => {| pb_HostIP := ""; pb_HostPort := fmt_d p |}
    end.
Proof.
  unfold resourceRegistryCreate, resourceRegistryRead, expandExposureOpts.
  intros H Hfree Hin.
  exec; in_events; simplify_eq.
  all: cbn; split_and!; try done.
  all: by destruct (k3d_registry.port _) as [|[?|] ?].
Qed.

Lemma registry_is_run_as_declared_witness :
  ∃ s' evs reg,
    resourceRegistryCreate (Sim.host Sim.no_faults) Sim.k3d_types
      (Sim.fresh Scenarios.registry_with_port) = (Ret [], s', evs) ∧
    evs !! 1%nat = Some (ECall (CRegistryRun reg) None) ∧
    registry_Host reg = "k3d-bar" ∧
    pm_Binding (registry_ExposureOpts reg)
    = {| pb_HostIP := "127.0.0.1"; pb_HostPort := "40000" |}.
Proof.
  assert (resourceRegistryCreate (Sim.host Sim.no_faults) Sim.k3d_types
            (Sim.fresh Scenarios.registry_with_port)
          = Scenarios.create_registry_with_port) as Hrun
    by (vm_compute; reflexivity).
  eassert (ECall (CRegistryRun _) None
           ∈ Scenarios.create_registry_with_port.2) as Hin.
  { apply list_elem_of_lookup. exists 1%nat. reflexivity. }
  destruct (registry_is_run_as_declared
              (Sim.host Sim.no_faults) Sim.k3d_types
              (Sim.fresh Scenarios.registry_with_port) _ _ _ _ _
              40000 None _ Hrun eq_refl Hin)
    as (Hhost & _ & _ & _ & _ & Hbinding).
  eexists _, _, _. split; [rewrite Hrun; reflexivity|].
  split; [reflexivity|]. split; [exact Hhost|exact Hbinding].
Defined.

(** ** Reads *)





(** X16: the Read of the node data source fills [cluster] with the node's
    cluster label and [role] with the node's role.  A node that has no
    cluster label gives the empty string, not an error; the name is left
    as it is. *)
Theorem data_source_node_read_attributes
    {W} (h : Collaborators W) (t : K3dTypes) s r s' evs node w :
  dataSourceNodeRead h t s = (r, s', evs) →
  NodeGet h (Node_named (prefixed t (data_k3d_node.name (data s)))) (world s)
  = (Ok node, w) →
  data_k3d_node.name (data s') = data_k3d_node.name (data s) ∧
  (r = Ret [] →
   data_k3d_node.cluster (data s')
   = default "" (K3sNodeLabels node !! LabelClusterName t) ∧
   data_k3d_node.role (data s') = node_Role node) ∧
  (r = Ret [] → K3sNodeLabels node !! LabelClusterName t = None →
   data_k3d_node.cluster (data s') = "") ∧
  (∀ ds, r = Ret ds → ds ≠ [] →
         ∃ key err, last evs = Some (ECall (CSet key) (Some err)) ∧
                    ds = diag.FromErr err).
Proof.
  unfold dataSourceNodeRead. intros H Hget.
  exec.
  all: split_and!; [done|intros Hr|intros Hr Hnone|intros ? Hr Hne].
  all: try match goal with
           | Ha : NodeGet ?h ?n ?w = _, Hb : NodeGet ?h ?n ?w = _ |- _ =>
               rewrite Ha in Hb
           end.
  all: simplify_eq; cbn; try done.
  all: try (by eexists _, _).
  all: match goal with Hn : _ !! _ = None |- _ => by rewrite Hn end.
Qed.

Lemma data_source_node_read_attributes_witness :
  ∃ s' evs,
    dataSourceNodeRead (Sim.host Sim.no_faults) Sim.k3d_types
      (mkSt Scenarios.world_with_node Scenarios.data_node_bar "")
    = (Ret [], s', evs) ∧
    data_k3d_node.cluster (data s') = "" ∧ Id s' = "k3d-bar".
Proof.
  assert (dataSourceNodeRead (Sim.host Sim.no_faults) Sim.k3d_types
            (mkSt Scenarios.world_with_node Scenarios.data_node_bar "")
          = Scenarios.data_read_node_bar) as Hrun
    by (vm_compute; reflexivity).
  destruct (data_source_node_read_attributes
              (Sim.host Sim.no_faults) Sim.k3d_types
              (mkSt Scenarios.world_with_node Scenarios.data_node_bar "")
              _ _ _ (Node_named "k3d-bar") Scenarios.world_with_node
              Hrun eq_refl) as (_ & _ & Hempty & _).
  eexists _, _. split; [rewrite Hrun; reflexivity|].
  split; [|reflexivity].
  apply Hempty; reflexivity.
Defined.

(** ** Successful Creates *)



(** ** The k3s options *)

(** X18: the [k3s] block.  Only the first block is read.  Each element of
    [extra_args] gives one entry with the element's [arg] and its expanded
    node filters, in order.  Unlike the other helpers this loop has no
    guard: a nil element panics wherever it stands, also in first place. *)
Theorem k3s_extra_args_are_expanded_in_order :
  (∀ v rest out,
     expandConfigOptionsK3s (Some v :: rest) = Ret out →
     length (ExtraArgs out) = length (k3s_extra_args v) ∧
     ∀ i a,
       k3s_extra_args v !! i = Some (Some a) →
       ∃ w, ExtraArgs out !! i = Some w ∧ Arg w = xa_arg a ∧
            expandNodeFilters (xa_node_filters a) = Ret (arg_NodeFilters w)) ∧
  (∀ v rest,
     None ∈ k3s_extra_args v →
     expandConfigOptionsK3s (Some v :: rest) = Panic) ∧
  (∀ rest, expandConfigOptionsK3s (None :: rest) = Ret {| ExtraArgs := [] |}).
Proof.
  split_and!.
  - intros v rest out H. unfold expandConfigOptionsK3s in H.
    destruct (range_append _ (k3s_extra_args v) []) as [args|] eqn:Hargs;
      simpl in H; simplify_eq. simpl.
    split; [by eapply range_append_length|].
    intros i a Hi.
    destruct (range_append_lookup _ _ _ _ _ Hargs Hi) as (w & Hw & Hb).
    exists w. split; [done|]. simpl in Hb.
    destruct (expandNodeFilters _); by simplify_eq/=.
  - intros v rest Hin. unfold expandConfigOptionsK3s.
    rewrite range_append_Panic; [done|].
    apply Exists_exists. by exists None.
  - done.
Qed.

Lemma k3s_extra_args_are_expanded_in_order_witness :
  (∃ w, expandConfigOptionsK3s
          [Some {| k3s_extra_args :=
                     [Some {| xa_arg := "--tls-san=my.host.domain";
                              xa_node_filters := [Some "agent"] |}] |}]
        = Ret {| ExtraArgs := [w] |} ∧
        Arg w = "--tls-san=my.host.domain" ∧ arg_NodeFilters w = ["agent"]) ∧
  expandConfigOptionsK3s [Some {| k3s_extra_args := [None] |}] = Panic.
Proof.
  destruct k3s_extra_args_are_expanded_in_order as (Hentries & Hpanic & _).
  split.
  - destruct (Hentries
                {| k3s_extra_args :=
                     [Some {| xa_arg := "--tls-san=my.host.domain";
                              xa_node_filters := [Some "agent"] |}] |}
                [] _ eq_refl) as (_ & Hat).
    destruct (Hat 0%nat _ eq_refl) as (w & Hw & Harg & Hnf).
    exists w. split; [injection Hw as <-; reflexivity|].
    split; [exact Harg|]. injection Hnf as <-. reflexivity.
  - apply (Hpanic {| k3s_extra_args := [None] |} []).
    apply list_elem_of_here.
Defined.

(** X19: in the earlier variant of the cluster resource, the k3s agent and
    server arguments and the registries to use are copied as they are, in
    their order, and [registries.create] is a flag that is copied too; a
    nil element in any of the three lists panics. *)
Theorem earlier_variant_copies_its_lists :
  (∀ rest agent server,
     v1alpha2.expandConfigOptionsK3s
       (Some {| v1alpha2.extra_agent_args := Some <$> agent;
                v1alpha2.extra_server_args := Some <$> server |} :: rest)
     = Ret {| v1alpha2.ExtraServerArgs := server;
              v1alpha2.ExtraAgentArgs := agent |}) ∧
  (∀ v rest,
     None ∈ v1alpha2.extra_agent_args v ∨
     None ∈ v1alpha2.extra_server_args v →
     v1alpha2.expandConfigOptionsK3s (Some v :: rest) = Panic) ∧
  (∀ rest config create use,
     v1alpha2.expandRegistries
       (Some {| v1alpha2.config := config; v1alpha2.create := create;
                v1alpha2.use := Some <$> use |} :: rest)
     = Ret {| v1alpha2.Use := use; v1alpha2.Create := create;
              v1alpha2.Config := config |}) ∧
  (∀ v rest,
     None ∈ v1alpha2.use v →
     v1alpha2.expandRegistries (Some v :: rest) = Panic).
Proof.
  split_and!.
  - intros rest agent server. unfold v1alpha2.expandConfigOptionsK3s.
    cbn [v1alpha2.extra_agent_args v1alpha2.extra_server_args].
    by rewrite !range_append_assert.
  - intros v rest Hin. unfold v1alpha2.expandConfigOptionsK3s.
    destruct Hin as [Hin|Hin].
    + rewrite (range_append_Panic assert (v1alpha2.extra_agent_args v));
        [reflexivity|].
      apply Exists_exists. by exists None.
    + destruct (range_append assert (v1alpha2.extra_agent_args v) []);
        simpl; [|done].
      rewrite (range_append_Panic assert (v1alpha2.extra_server_args v));
        [reflexivity|].
      apply Exists_exists. by exists None.
  - intros rest config create use. unfold v1alpha2.expandRegistries.
    cbn [v1alpha2.use v1alpha2.create v1alpha2.config].
    by rewrite range_append_assert.
  - intros v rest Hin. unfold v1alpha2.expandRegistries.
    rewrite (range_append_Panic assert (v1alpha2.use v)); [reflexivity|].
    apply Exists_exists. by exists None.
Qed.

Lemma earlier_variant_copies_its_lists_witness :
  v1alpha2.expandConfigOptionsK3s
    [Some {| v1alpha2.extra_agent_args := [];
             v1alpha2.extra_server_args := [None] |}] = Panic ∧
  v1alpha2.expandRegistries
    [Some {| v1alpha2.config := ""; v1alpha2.create := true;
             v1alpha2.use := [None] |}] = Panic.
Proof.
  destruct earlier_variant_copies_its_lists as (_ & Hk3s & _ & Hregs).
  split.
  - apply Hk3s. right. apply list_elem_of_here.
  - apply Hregs. apply list_elem_of_here.
Defined.
